(** * Nexus Tutor: the orchestration engine of the multi-agent tutoring app

    A shallow embedding of the orchestration code of the [App] component
    ([determineNextAgent], [runStep], [startSession], [handleHumanSubmit] and
    the controls it renders), of [callAgent] from [services/geminiService.ts]
    and of the data model of [types.ts].

    Conventions.
    - A TypeScript [string | null] is an [option string]; the code tests such a
      field with [!s.field], which is JavaScript truthiness: a field counts as
      set when it is neither [null] nor the empty string ([truthy]).
    - [confidence] is a JavaScript number compared with [0.8]: it is a binary64
      float ([PrimFloat.float]) and [>=] is the IEEE comparison.
    - [turnCount] and [maxTurns] are JavaScript numbers that only ever hold
      small integers (0, 15, and successors); they are modelled in [Z], where
      [+ 1] is exact as it is on doubles below 2^53.
    - The states are those of the declared type of [SharedState].  The
      judgment of the Quality-Reviewer is read off [JSON.parse] unchecked, so
      its three values are taken in the declared types of the fields they are
      stored in: a verdict of [boolean | null], comments of [string | null], a
      confidence that is a number.
    - A log entry's [id] and [timestamp] come from [Math.random] and the clock
      and are read by no code path modelled here; they are left out.
    - [runStep] is an [async] function.  It is split at its [await]: [runStep]
      is the part that runs up to the call of [callAgent], which leaves the
      call pending ([Awaiting]); [runStep_settled] is the part that runs once
      the call has settled.  The [setTimeout] that continues the loop leaves a
      pending [Scheduled] task.  The pending tasks are a cell of the model
      ([pending]), next to the [useState] cells. *)

From Stdlib Require Import ZArith String Ascii List Bool Lia.
From Stdlib Require Import PrimFloat.
Import ListNotations.

Local Open Scope Z_scope.
Local Open Scope string_scope.
Local Open Scope list_scope.

Set Warnings "-inexact-float".

(** ** types.ts *)

Inductive Agent : Set :=
  | SUPERVISOR
  | CURRICULUM_PLANNER
  | CONCEPT_EXPLAINER
  | QUIZ_GENERATOR
  | FEEDBACK_ANALYZER
  | MOTIVATOR
  | QUALITY_REVIEWER
  | HUMAN_APPROVAL
  | END.

(** The enum's string values, used where an agent is spliced into a template. *)
Definition Agent_name (a : Agent) : string :=
  match a with
  | SUPERVISOR => "SUPERVISOR"
  | CURRICULUM_PLANNER => "CURRICULUM_PLANNER"
  | CONCEPT_EXPLAINER => "CONCEPT_EXPLAINER"
  | QUIZ_GENERATOR => "QUIZ_GENERATOR"
  | FEEDBACK_ANALYZER => "FEEDBACK_ANALYZER"
  | MOTIVATOR => "MOTIVATOR"
  | QUALITY_REVIEWER => "QUALITY_REVIEWER"
  | HUMAN_APPROVAL => "HUMAN_APPROVAL"
  | END => "END"
  end.

Record SharedState : Set := mkSharedState {
  topic : string;
  difficulty : string;
  lessonPlan : option string;
  explanation : option string;
  quiz : option string;
  studentAnswers : option string;
  feedback : option string;
  motivatorMessage : option string;
  reviewerApproved : option bool;
  reviewerComments : option string;
  confidence : float;
  turnCount : Z;
  maxTurns : Z
}.

Inductive LogType : Set := decision | output_log | error | status.

Record LogEntry : Set := mkLogEntry {
  agent : Agent;
  reason : option string;
  content : string;
  type : LogType
}.

(** ** JavaScript values *)

(** [!!v] for a [string]. *)
Definition nonempty (v : string) : bool := negb (String.eqb v "").

(** [!!v] for a [string | null]. *)
Definition truthy (v : option string) : bool :=
  match v with
  | Some str => nonempty str
  | None => false
  end.

(** [!!v], [v === null], [v === false] and [v !== true] for a [boolean | null]. *)
Definition is_true (v : option bool) : bool :=
  match v with Some true => true | _ => false end.

Definition is_null (v : option bool) : bool :=
  match v with None => true | Some _ => false end.

Definition is_false (v : option bool) : bool :=
  match v with Some false => true | _ => false end.

(** [x >= y] and [x < y] on numbers: the IEEE comparison, false on NaN. *)
Definition js_ge (x y : float) : bool :=
  match PrimFloat.compare x y with
  | FEq | FGt => true
  | FLt | FNotComparable => false
  end.

Definition js_lt (x y : float) : bool :=
  match PrimFloat.compare x y with
  | FLt => true
  | FEq | FGt | FNotComparable => false
  end.

(** [a || b] on strings. *)
Definition js_or (a : option string) (b : string) : string :=
  match a with
  | Some str => if nonempty str then str else b
  | None => b
  end.

(** ** Object spread with one field replaced: [{ ...s, field: v }] *)

Definition set_topic (v : string) (s : SharedState) : SharedState :=
  mkSharedState v (difficulty s) (lessonPlan s) (explanation s) (quiz s)
    (studentAnswers s) (feedback s) (motivatorMessage s) (reviewerApproved s)
    (reviewerComments s) (confidence s) (turnCount s) (maxTurns s).

Definition set_difficulty (v : string) (s : SharedState) : SharedState :=
  mkSharedState (topic s) v (lessonPlan s) (explanation s) (quiz s)
    (studentAnswers s) (feedback s) (motivatorMessage s) (reviewerApproved s)
    (reviewerComments s) (confidence s) (turnCount s) (maxTurns s).

Definition set_lessonPlan (v : option string) (s : SharedState) : SharedState :=
  mkSharedState (topic s) (difficulty s) v (explanation s) (quiz s)
    (studentAnswers s) (feedback s) (motivatorMessage s) (reviewerApproved s)
    (reviewerComments s) (confidence s) (turnCount s) (maxTurns s).

Definition set_explanation (v : option string) (s : SharedState) : SharedState :=
  mkSharedState (topic s) (difficulty s) (lessonPlan s) v (quiz s)
    (studentAnswers s) (feedback s) (motivatorMessage s) (reviewerApproved s)
    (reviewerComments s) (confidence s) (turnCount s) (maxTurns s).

Definition set_quiz (v : option string) (s : SharedState) : SharedState :=
  mkSharedState (topic s) (difficulty s) (lessonPlan s) (explanation s) v
    (studentAnswers s) (feedback s) (motivatorMessage s) (reviewerApproved s)
    (reviewerComments s) (confidence s) (turnCount s) (maxTurns s).

Definition set_studentAnswers (v : option string) (s : SharedState) : SharedState :=
  mkSharedState (topic s) (difficulty s) (lessonPlan s) (explanation s) (quiz s)
    v (feedback s) (motivatorMessage s) (reviewerApproved s)
    (reviewerComments s) (confidence s) (turnCount s) (maxTurns s).

Definition set_feedback (v : option string) (s : SharedState) : SharedState :=
  mkSharedState (topic s) (difficulty s) (lessonPlan s) (explanation s) (quiz s)
    (studentAnswers s) v (motivatorMessage s) (reviewerApproved s)
    (reviewerComments s) (confidence s) (turnCount s) (maxTurns s).

Definition set_motivatorMessage (v : option string) (s : SharedState) : SharedState :=
  mkSharedState (topic s) (difficulty s) (lessonPlan s) (explanation s) (quiz s)
    (studentAnswers s) (feedback s) v (reviewerApproved s)
    (reviewerComments s) (confidence s) (turnCount s) (maxTurns s).

Definition set_reviewerApproved (v : option bool) (s : SharedState) : SharedState :=
  mkSharedState (topic s) (difficulty s) (lessonPlan s) (explanation s) (quiz s)
    (studentAnswers s) (feedback s) (motivatorMessage s) v
    (reviewerComments s) (confidence s) (turnCount s) (maxTurns s).

Definition set_reviewerComments (v : option string) (s : SharedState) : SharedState :=
  mkSharedState (topic s) (difficulty s) (lessonPlan s) (explanation s) (quiz s)
    (studentAnswers s) (feedback s) (motivatorMessage s) (reviewerApproved s)
    v (confidence s) (turnCount s) (maxTurns s).

Definition set_confidence (v : float) (s : SharedState) : SharedState :=
  mkSharedState (topic s) (difficulty s) (lessonPlan s) (explanation s) (quiz s)
    (studentAnswers s) (feedback s) (motivatorMessage s) (reviewerApproved s)
    (reviewerComments s) v (turnCount s) (maxTurns s).

Definition set_turnCount (v : Z) (s : SharedState) : SharedState :=
  mkSharedState (topic s) (difficulty s) (lessonPlan s) (explanation s) (quiz s)
    (studentAnswers s) (feedback s) (motivatorMessage s) (reviewerApproved s)
    (reviewerComments s) (confidence s) v (maxTurns s).

(** ** The App component: the selector *)

Definition INITIAL_STATE : SharedState :=
  {| topic := "";
     difficulty := "Beginner";
     lessonPlan := None;
     explanation := None;
     quiz := None;
     studentAnswers := None;
     feedback := None;
     motivatorMessage := None;
     reviewerApproved := None;
     reviewerComments := None;
     confidence := 0%float;
     turnCount := 0;
     maxTurns := 15 |}.

(** The selector returns [END] for the spec's TERMINATE and [HUMAN_APPROVAL]
    for its AWAIT_HUMAN. *)
Definition determineNextAgent (s : SharedState) : Agent :=
  if turnCount s >=? maxTurns s then END
  else if negb (truthy (lessonPlan s)) then CURRICULUM_PLANNER
  else if negb (truthy (explanation s)) then CONCEPT_EXPLAINER
  else if negb (truthy (quiz s)) then QUIZ_GENERATOR
  else if truthy (quiz s) && negb (truthy (studentAnswers s)) then HUMAN_APPROVAL
  else if truthy (studentAnswers s) && negb (truthy (feedback s)) then FEEDBACK_ANALYZER
  else if truthy (feedback s) && negb (truthy (motivatorMessage s)) then MOTIVATOR
  else if truthy (motivatorMessage s) && is_null (reviewerApproved s) then QUALITY_REVIEWER
  else if is_true (reviewerApproved s) && js_ge (confidence s) 0.8%float then END
  else if is_false (reviewerApproved s) then HUMAN_APPROVAL
  else END.

(** Case analysis on the tests of the selector, in their order. *)
Ltac selector_cases :=
  unfold determineNextAgent;
  repeat match goal with
         | |- context [if ?b then _ else _] => destruct b eqn:?
         end.

(** The condition under which the human acts as the student
    ([state.quiz && !state.studentAnswers]); it picks the hint above the text
    area and the branch of [handleHumanSubmit]. *)
Definition studentCondition (s : SharedState) : bool :=
  truthy (quiz s) && negb (truthy (studentAnswers s)).

Definition STUDENT_HINT : string :=
  "You are currently the STUDENT. Please answer the quiz questions generated by the AI.".

Definition SUPERVISOR_HINT : string :=
  "The system requires review. Provide feedback or override instructions.".

Definition contextHint (s : SharedState) : string :=
  if studentCondition s then STUDENT_HINT else SUPERVISOR_HINT.


(** ** services/geminiService.ts *)

(** What the generative service does with one request: it answers, with a
    [text] that may be absent, or the request fails. *)
Inductive ServiceReply : Set :=
  | Generated (text : option string)
  | ServiceError.

(** [callAgent(agent, state)]: the promise resolves with
    [response.text || "No response generated."] ([Some]) or rejects with the
    service's error ([None]).  The agent and the state go into the request;
    the reply is the environment's. *)
Definition callAgent (agent : Agent) (state : SharedState) (reply : ServiceReply)
  : option string :=
  match reply with
  | Generated text => Some (js_or text "No response generated.")
  | ServiceError => None
  end.

(** What [runStep] reads off the value of [JSON.parse(output)]:
    [review.approved], [review.comments] and [review.confidence], as values of
    the types [SharedState] declares for the fields they are stored in
    ([boolean | null], [string | null], [number]).  The code stores them
    unchecked: the response schema of [callAgent] asks the service for all
    three, and nothing in [runStep] looks whether they are there, so a
    verdict or comments that are [null] are stored as [null]. *)
Record Review : Set := mkReview {
  review_approved : option bool;
  review_comments : option string;
  review_confidence : float
}.

(** ** The App component: its state *)

(** What a call of [runStep] has left for the event loop to resume. *)
Inductive Task : Set :=
  | Awaiting (targetAgent : Agent) (currentState : SharedState)
      (* await callAgent(targetAgent, currentState) *)
  | Scheduled (next : Agent) (updatedState : SharedState)
      (* setTimeout(() => runStep(next, updatedState), 800) *).

(** The [useState] cells of [App], and the pending tasks, oldest first. *)
Record App : Set := mkApp {
  state : SharedState;
  logs : list LogEntry;
  isProcessing : bool;
  topicInput : string;
  difficultyInput : string;
  humanInput : string;
  showHumanPrompt : bool;
  currentStep : option Agent;
  pending : list Task
}.

Definition setState (v : SharedState) (a : App) : App :=
  mkApp v (logs a) (isProcessing a) (topicInput a) (difficultyInput a)
    (humanInput a) (showHumanPrompt a) (currentStep a) (pending a).

Definition setLogs (v : list LogEntry) (a : App) : App :=
  mkApp (state a) v (isProcessing a) (topicInput a) (difficultyInput a)
    (humanInput a) (showHumanPrompt a) (currentStep a) (pending a).

Definition setIsProcessing (v : bool) (a : App) : App :=
  mkApp (state a) (logs a) v (topicInput a) (difficultyInput a)
    (humanInput a) (showHumanPrompt a) (currentStep a) (pending a).

Definition setTopicInput (v : string) (a : App) : App :=
  mkApp (state a) (logs a) (isProcessing a) v (difficultyInput a)
    (humanInput a) (showHumanPrompt a) (currentStep a) (pending a).

Definition setDifficultyInput (v : string) (a : App) : App :=
  mkApp (state a) (logs a) (isProcessing a) (topicInput a) v
    (humanInput a) (showHumanPrompt a) (currentStep a) (pending a).

Definition setHumanInput (v : string) (a : App) : App :=
  mkApp (state a) (logs a) (isProcessing a) (topicInput a) (difficultyInput a)
    v (showHumanPrompt a) (currentStep a) (pending a).

Definition setShowHumanPrompt (v : bool) (a : App) : App :=
  mkApp (state a) (logs a) (isProcessing a) (topicInput a) (difficultyInput a)
    (humanInput a) v (currentStep a) (pending a).

Definition setCurrentStep (v : option Agent) (a : App) : App :=
  mkApp (state a) (logs a) (isProcessing a) (topicInput a) (difficultyInput a)
    (humanInput a) (showHumanPrompt a) v (pending a).

Definition setPending (v : list Task) (a : App) : App :=
  mkApp (state a) (logs a) (isProcessing a) (topicInput a) (difficultyInput a)
    (humanInput a) (showHumanPrompt a) (currentStep a) v.

(** A task handed to the event loop. *)
Definition defer (task : Task) (a : App) : App :=
  setPending (pending a ++ [task]) a.

(** The pending tasks without the [n]-th. *)
Definition removeAt {A : Type} (n : nat) (l : list A) : list A :=
  firstn n l ++ skipn (S n) l.

(** The component as first rendered. *)
Definition initialApp : App :=
  {| state := INITIAL_STATE;
     logs := [];
     isProcessing := false;
     topicInput := "";
     difficultyInput := "Beginner";
     humanInput := "";
     showHumanPrompt := false;
     currentStep := None;
     pending := [] |}.

Definition addLog (agent : Agent) (content : string) (type : LogType)
    (reason : option string) (a : App) : App :=
  setLogs (logs a ++ [mkLogEntry agent reason content type]) a.

(** ** The App component: one turn *)

Section Orchestration.

(** [JSON.parse(output)] followed by the reads of [review.approved],
    [review.comments] and [review.confidence]: [None] when [JSON.parse] or a
    read throws (the output is not JSON, or it is the JSON [null]), otherwise
    the three values read.  The states of this development are those of the
    declared type of [SharedState], so the three values are taken in the
    declared types of their fields, [null] included. *)
Variable JSON_parse : string -> option Review.

(** The state computed inside [try]: the spread with [turnCount + 1], then the
    [switch].  [None] when [JSON.parse] throws. *)
Definition applyOutput (targetAgent : Agent) (currentState : SharedState)
    (output : string) : option SharedState :=
  let updatedState := set_turnCount (turnCount currentState + 1) currentState in
  match targetAgent with
  | CURRICULUM_PLANNER => Some (set_lessonPlan (Some output) updatedState)
  | CONCEPT_EXPLAINER => Some (set_explanation (Some output) updatedState)
  | QUIZ_GENERATOR => Some (set_quiz (Some output) updatedState)
  | FEEDBACK_ANALYZER => Some (set_feedback (Some output) updatedState)
  | MOTIVATOR => Some (set_motivatorMessage (Some output) updatedState)
  | QUALITY_REVIEWER =>
      match JSON_parse output with
      | Some review =>
          Some (set_confidence (review_confidence review)
                 (set_reviewerComments (review_comments review)
                   (set_reviewerApproved (review_approved review)
                     updatedState)))
      | None => None
      end
  | SUPERVISOR | HUMAN_APPROVAL | END => Some updatedState
  end.

(** [runStep] up to its [await]. *)
Definition runStep (targetAgent : Agent) (currentState : SharedState) (a : App) : App :=
  let a := setIsProcessing true a in
  let a := setCurrentStep (Some targetAgent) a in
  let a := addLog targetAgent ("Agent " ++ Agent_name targetAgent ++ " starting...")
             status None a in
  defer (Awaiting targetAgent currentState) a.

(** The [finally] block. *)
Definition runStep_finally (a : App) : App :=
  setCurrentStep None (setIsProcessing false a).

(** The [catch] block. *)
Definition runStep_catch (targetAgent : Agent) (a : App) : App :=
  addLog targetAgent "Execution failed." error None a.

(** [runStep] from the point where the awaited call has settled with [reply]. *)
Definition runStep_settled (targetAgent : Agent) (currentState : SharedState)
    (reply : ServiceReply) (a : App) : App :=
  match callAgent targetAgent currentState reply with
  | None => runStep_finally (runStep_catch targetAgent a)
  | Some output =>
      match applyOutput targetAgent currentState output with
      | None => runStep_finally (runStep_catch targetAgent a)
      | Some updatedState =>
          let a := addLog targetAgent output output_log None a in
          let a := setState updatedState a in
          let next := determineNextAgent updatedState in
          match next with
          | HUMAN_APPROVAL =>
              let a := setShowHumanPrompt true a in
              let a := addLog SUPERVISOR "Awaiting human intervention." decision
                         (Some "Human input required for student answers or system adjustment.")
                         a in
              runStep_finally a
          | END =>
              let a := addLog END "Learning objective reached or max turns exceeded."
                         status None a in
              runStep_finally a
          | _ =>
              let a := defer (Scheduled next updatedState) a in
              runStep_finally a
          end
      end
  end.

(** ** The App component: the two handlers *)

Definition startSession (a : App) : App :=
  if negb (nonempty (topicInput a)) then a
  else
    let s := set_difficulty (difficultyInput a) (set_topic (topicInput a) INITIAL_STATE) in
    let a := setState s a in
    let a := setLogs [] a in
    let a := addLog SUPERVISOR
               ("Initializing session for: " ++ topicInput a ++ " (" ++ difficultyInput a ++ ")")
               status None a in
    runStep CURRICULUM_PLANNER s a.

(** The state [handleHumanSubmit] hands on: the spread of [state], with
    [studentAnswers] written when the human acts as the student. *)
Definition humanUpdate (a : App) : SharedState :=
  if studentCondition (state a)
  then set_studentAnswers (Some (humanInput a)) (state a)
  else state a.

(** [handleHumanSubmit] up to and including [setState(updatedState)]. *)
Definition humanMerge (a : App) : App :=
  let updatedState := humanUpdate a in
  let a' := setShowHumanPrompt false a in
  let a' :=
    if studentCondition (state a)
    then addLog HUMAN_APPROVAL ("Student Answer: " ++ humanInput a) output_log None a'
    else addLog HUMAN_APPROVAL ("Human feedback: " ++ humanInput a) output_log None a' in
  let a' := setHumanInput "" a' in
  setState updatedState a'.

Definition handleHumanSubmit (a : App) : App :=
  if negb (nonempty (humanInput a)) then a
  else
    let updatedState := humanUpdate a in
    let next := determineNextAgent updatedState in
    runStep next updatedState (humanMerge a).

(** ** The App component: what is rendered, and the event loop *)

(** [disabled] of the topic field and of the difficulty select. *)
Definition inputsDisabled (a : App) : bool :=
  (0 <? turnCount (state a))%Z && negb (is_true (reviewerApproved (state a))).

(** [disabled] of the START TUTORING button. *)
Definition startDisabled (a : App) : bool :=
  isProcessing a || negb (nonempty (topicInput a)).

(** The hint above the text area, when the human prompt is rendered. *)
Definition renderedHint (a : App) : option string :=
  if showHumanPrompt a then Some (contextHint (state a)) else None.

(** What can happen to the component: the user edits a field (the select
    offers five difficulties; any string is let through here) or clicks one
    of the two buttons, the call awaited by the [n]-th pending task settles,
    or the timer of the [n]-th pending task fires. *)
Inductive Event : Set :=
  | InputTopic (v : string)
  | InputDifficulty (v : string)
  | InputHuman (v : string)
  | ClickStart
  | ClickSubmit
  | InvokerSettles (n : nat) (reply : ServiceReply)
  | TimerFires (n : nat).

(** One event handled.  An event whose control is disabled or not rendered
    changes nothing (the text area and the SUBMIT button are rendered only
    while [showHumanPrompt]), and so does one that names no pending task of
    its kind. *)
Definition dispatch (e : Event) (a : App) : App :=
  match e with
  | InputTopic v => if inputsDisabled a then a else setTopicInput v a
  | InputDifficulty v => if inputsDisabled a then a else setDifficultyInput v a
  | InputHuman v => if showHumanPrompt a then setHumanInput v a else a
  | ClickStart => if startDisabled a then a else startSession a
  | ClickSubmit => if showHumanPrompt a then handleHumanSubmit a else a
  | InvokerSettles n reply =>
      match nth_error (pending a) n with
      | Some (Awaiting targetAgent currentState) =>
          runStep_settled targetAgent currentState reply
            (setPending (removeAt n (pending a)) a)
      | _ => a
      end
  | TimerFires n =>
      match nth_error (pending a) n with
      | Some (Scheduled next updatedState) =>
          runStep next updatedState (setPending (removeAt n (pending a)) a)
      | _ => a
      end
  end.

(** The component after a sequence of events, oldest first. *)
Definition run (events : list Event) (a : App) : App :=
  fold_left (fun a e => dispatch e a) events a.

(** Strict sequencing of turns: a click is handled only while no call and no
    timer is pending, so that one invocation is in flight at a time. *)
Definition idle (a : App) : bool :=
  match pending a with
  | [] => true
  | _ :: _ => false
  end.

Definition dispatchSequenced (e : Event) (a : App) : App :=
  match e with
  | ClickStart | ClickSubmit => if idle a then dispatch e a else a
  | _ => dispatch e a
  end.

Definition runSequenced (events : list Event) (a : App) : App :=
  fold_left (fun a e => dispatchSequenced e a) events a.

(** A whole turn: [runStep] called on [a], and its call settled by [reply]
    before anything else happens. *)
Definition turn (targetAgent : Agent) (currentState : SharedState)
    (reply : ServiceReply) (a : App) : App :=
  dispatch (InvokerSettles (length (pending a)) reply) (runStep targetAgent currentState a).

(** A turn of [targetAgent] on [currentState] is successful when the call
    resolves and, for the Quality-Reviewer, its output parses. *)
Definition turnSucceeds (targetAgent : Agent) (currentState : SharedState)
    (reply : ServiceReply) : bool :=
  match callAgent targetAgent currentState reply with
  | Some output =>
      match applyOutput targetAgent currentState output with
      | Some _ => true
      | None => false
      end
  | None => false
  end.

End Orchestration.

(** The spec's [submitHumanInput(text)]: [text] typed into the text area,
    then SUBMIT clicked.  Both are rendered under [showHumanPrompt &&] only:
    while the prompt is not shown there is nothing to type into and nothing
    to click, and [handleHumanSubmit] is not called. *)
Definition submitHumanInput (text : string) (a : App) : App :=
  if showHumanPrompt a then handleHumanSubmit (setHumanInput text a) else a.

(** The log entries the handlers write. *)
Definition startEntry (targetAgent : Agent) : LogEntry :=
  mkLogEntry targetAgent None ("Agent " ++ Agent_name targetAgent ++ " starting...") status.

Definition errorEntry (targetAgent : Agent) : LogEntry :=
  mkLogEntry targetAgent None "Execution failed." error.

Definition feedbackEntry (text : string) : LogEntry :=
  mkLogEntry HUMAN_APPROVAL None ("Human feedback: " ++ text) output_log.

Definition answerEntry (text : string) : LogEntry :=
  mkLogEntry HUMAN_APPROVAL None ("Student Answer: " ++ text) output_log.

(** ** Invariants of sessions *)

Definition taskAgent (task : Task) : Agent :=
  match task with
  | Awaiting targetAgent _ => targetAgent
  | Scheduled next _ => next
  end.

Definition taskState (task : Task) : SharedState :=
  match task with
  | Awaiting _ currentState => currentState
  | Scheduled _ updatedState => updatedState
  end.

Definition b2z (b : bool) : Z := if b then 1 else 0.

(** The turns a session still owes before its quiz is posed. *)
Definition owed (s : SharedState) : Z :=
  b2z (negb (truthy (lessonPlan s)))
  + b2z (negb (truthy (explanation s)))
  + b2z (negb (truthy (quiz s))).

(** A session that has not been answered yet and has spent no turn on
    anything but its first three artifacts. *)
Definition opening (s : SharedState) : Prop :=
  turnCount s + owed s <= 3 /\ truthy (studentAnswers s) = false.

(** Feedback is only ever given on answers. *)
Definition answered (s : SharedState) : Prop :=
  truthy (feedback s) = true -> truthy (studentAnswers s) = true.

(** What holds of every session, sequenced or not: the stored state and the
    state of every pending task keep feedback behind answers, and every
    pending task was chosen by the selector on its state. *)
Definition wellChosen (task : Task) : Prop :=
  taskAgent task = determineNextAgent (taskState task) /\ answered (taskState task).

Definition wellFormed (a : App) : Prop :=
  answered (state a) /\ Forall wellChosen (pending a).

(** What holds of the human prompt in every session, sequenced or not.
    - While the prompt is not shown the text area, which is not rendered
      then, holds no text.
    - While the stored state is one the selector asks the student about, the
      prompt is shown. *)
Definition promptKept (a : App) : Prop :=
  (showHumanPrompt a = false -> humanInput a = "")
  /\ (determineNextAgent (state a) = HUMAN_APPROVAL ->
      studentCondition (state a) = true ->
      showHumanPrompt a = true).

(** The invariant of sequenced sessions, on the three cells it depends on.
    - [maxTurns] is 15 and [turnCount] does not exceed it.
    - At most one task is pending; it belongs to the stored state, was chosen
      by the selector and starts below the cap.
    - While the human prompt is shown, either nothing is pending and the cap
      is not reached, or the pending task belongs to a session that START has
      just opened over a prompt left on screen. *)
Definition invariant3 (st : SharedState) (p : list Task) (shown : bool) : Prop :=
  maxTurns st = 15
  /\ turnCount st <= 15
  /\ match p with
     | [] => shown = true -> turnCount st < 15
     | [task] =>
         st = taskState task
         /\ taskAgent task = determineNextAgent st
         /\ turnCount st < 15
         /\ (shown = true -> opening st)
     | _ :: _ :: _ => False
     end.

Definition invariant (a : App) : Prop :=
  invariant3 (state a) (pending a) (showHumanPrompt a).

(** ** Sample sessions *)

(** A parser for the samples: it knows four judgments, one of them with a
    null verdict, and rejects the rest. *)
Definition sampleParse (output : string) : option Review :=
  if String.eqb output "approve 0.92"
  then Some (mkReview (Some true) (Some "Good.") 0.92%float)
  else if String.eqb output "approve 0.5"
  then Some (mkReview (Some true) (Some "Thin.") 0.5%float)
  else if String.eqb output "reject 0.9"
  then Some (mkReview (Some false) (Some "Rework.") 0.9%float)
  else if String.eqb output "undecided 0.7"
  then Some (mkReview None (Some "Undecided.") 0.7%float)
  else None.

(** The call of the [n]-th pending task resolves with [text]. *)
Definition say (n : nat) (text : string) : Event :=
  InvokerSettles n (Generated (Some text)).

(** A state after a review that approved with confidence 0.5. *)
Definition approvedLowConfidence : SharedState :=
  {| topic := "Photosynthesis";
     difficulty := "Beginner";
     lessonPlan := Some "plan";
     explanation := Some "explanation";
     quiz := Some "quiz";
     studentAnswers := Some "B, A, C";
     feedback := Some "feedback";
     motivatorMessage := Some "well done";
     reviewerApproved := Some true;
     reviewerComments := Some "Thin.";
     confidence := 0.5%float;
     turnCount := 6;
     maxTurns := 15 |}.

(** A state waiting for the student's answers. *)
Definition quizPosed : SharedState :=
  set_turnCount 3
    (set_quiz (Some "quiz")
       (set_explanation (Some "explanation")
          (set_lessonPlan (Some "plan") INITIAL_STATE))).

(** A state the Quality-Reviewer rejected. *)
Definition reviewRejected : SharedState :=
  set_confidence 0.9%float
    (set_reviewerComments (Some "Rework.")
       (set_reviewerApproved (Some false) approvedLowConfidence)).

(** A state waiting for its review. *)
Definition motivated : SharedState :=
  set_turnCount 5
    (set_confidence 0%float
       (set_reviewerComments None (set_reviewerApproved None approvedLowConfidence))).

(** A state with a plan and no explanation. *)
Definition planned : SharedState :=
  set_turnCount 1 (set_lessonPlan (Some "plan") INITIAL_STATE).

(** The component showing [s], suspended or not. *)
Definition showing (s : SharedState) (suspended : bool) : App :=
  setShowHumanPrompt suspended (setState s initialApp).

(** A session run in sequence up to the student's prompt, then up to a
    rejecting review. *)
Definition toQuiz : list Event :=
  [ InputTopic "Photosynthesis"; ClickStart;
    say 0 "plan"; TimerFires 0; say 0 "explanation"; TimerFires 0; say 0 "quiz" ].

Definition toRejection : list Event :=
  toQuiz ++
  [ InputHuman "B, A, C"; ClickSubmit;
    say 0 "feedback"; TimerFires 0; say 0 "well done"; TimerFires 0; say 0 "reject 0.9" ].

(** The same session taken through nine turns of supervision, to the cap. *)
Definition superviseInTurn : list Event :=
  [ InputHuman "go on"; ClickSubmit; say 0 "noted" ].

Definition toCap : list Event :=
  toRejection
  ++ superviseInTurn ++ superviseInTurn ++ superviseInTurn
  ++ superviseInTurn ++ superviseInTurn ++ superviseInTurn
  ++ superviseInTurn ++ superviseInTurn ++ superviseInTurn.

(** A session in which START is clicked again while the timer of the first
    turn is pending.  The second session (tasks at index 1 while the first
    one's call is left in flight at index 0) runs to a rejecting review and
    through eight turns of supervision to [turnCount = 14]; its ninth turn of
    supervision is in flight when the first session's calls resolve and put
    the human prompt back on screen.  That turn then ends at the cap with the
    prompt shown ([overlappingToCap]), and one more SUBMIT starts a turn of
    [END] ([overlapping]). *)
Definition supervise : list Event :=
  [ InputHuman "go on"; ClickSubmit; say 1 "noted" ].

Definition overlappingToCap : list Event :=
  [ InputTopic "Photosynthesis"; ClickStart; say 0 "plan";
    ClickStart; TimerFires 0;
    say 0 "plan"; TimerFires 1; say 1 "explanation"; TimerFires 1; say 1 "quiz";
    InputHuman "B, A, C"; ClickSubmit;
    say 1 "feedback"; TimerFires 1; say 1 "well done"; TimerFires 1; say 1 "reject 0.9" ]
  ++ supervise ++ supervise ++ supervise ++ supervise
  ++ supervise ++ supervise ++ supervise ++ supervise
  ++ [ InputHuman "go on"; ClickSubmit;
       say 0 "explanation"; TimerFires 1; say 1 "quiz";
       InputHuman "once more";
       say 0 "noted" ].

Definition overlapping : list Event :=
  overlappingToCap ++ [ ClickSubmit; say 0 "noted" ].

(** ** services/geminiService.ts: the request of [callAgent] *)

Definition SYSTEM_INSTRUCTIONS (a : Agent) : string :=
  match a with
  | SUPERVISOR => "You are the Supervisor. Based on the state, decide the next agent. Rules: No plan->Planner, No explanation->Explainer, No quiz->QuizGen, Student answer exists->FeedbackAnalyzer, Feedback exists->Motivator, Full output exists->QualityReviewer. Output format: NEXT_AGENT: <name> REASON: <reason>."
  | CURRICULUM_PLANNER => "You are a Curriculum Planner. Create a structured lesson plan with 3 learning objectives for the given topic and difficulty level."
  | CONCEPT_EXPLAINER => "You are a Concept Explainer. Write a clear, engaging explanation of the topic based on the lesson plan. Use analogies and simple terms suitable for the difficulty level."
  | QUIZ_GENERATOR => "You are a Quiz Generator. Create a 3-question multiple choice quiz to test the user's understanding of the explanation."
  | FEEDBACK_ANALYZER => "You are a Feedback Analyzer. Evaluate the student's answers against the quiz and explanation. Provide constructive feedback and score (0-100)."
  | MOTIVATOR => "You are a Motivator. Provide an encouraging, high-energy message to the student based on their feedback and performance."
  | QUALITY_REVIEWER => "You are a Quality Reviewer. Review all artifacts (plan, explanation, quiz, feedback). Decide if they meet pedagogical standards. Output JSON: { approved: boolean, comments: string, confidence: number (0-1) }."
  | HUMAN_APPROVAL => "You are requesting Human Approval. Summarize the changes or status for the human."
  | END => "Session completed."
  end.

(** The members of [Type] the schema uses. *)
Inductive SchemaType : Set := OBJECT | BOOLEAN | STRING | NUMBER.

Record ResponseSchema : Set := mkResponseSchema {
  schema_type : SchemaType;
  schema_properties : list (string * SchemaType);
  schema_required : list string
}.

(** The argument of [ai.models.generateContent]. *)
Record GenerateContentRequest : Set := mkRequest {
  model : string;
  contents : string;
  systemInstruction : string;
  temperature : float;
  responseMimeType : option string;
  responseSchema : option ResponseSchema
}.

Definition REVIEW_SCHEMA : ResponseSchema :=
  {| schema_type := OBJECT;
     schema_properties := [ ("approved", BOOLEAN); ("comments", STRING); ("confidence", NUMBER) ];
     schema_required := [ "approved"; "comments"; "confidence" ] |}.

Section Request.

(** [JSON.stringify] on a [SharedState]. *)
Variable JSON_stringify : SharedState -> string.

(** The request [callAgent(agent, state)] sends. *)
Definition request (agent : Agent) (state : SharedState) : GenerateContentRequest :=
  {| model := "gemini-3-flash-preview";
     contents := "Current State: " ++ JSON_stringify state ++ ". Topic: " ++ topic state
                 ++ ". Difficulty: " ++ difficulty state ++ ". Please perform your task.";
     systemInstruction := SYSTEM_INSTRUCTIONS agent;
     temperature := 0.7%float;
     responseMimeType :=
       match agent with QUALITY_REVIEWER => Some "application/json" | _ => None end;
     responseSchema :=
       match agent with QUALITY_REVIEWER => Some REVIEW_SCHEMA | _ => None end |}.

End Request.

(** ** The App component: what else is rendered *)

(** [s.replace(c, d)] with string arguments of one character: the first
    occurrence only. *)
Fixpoint replaceFirst (c d : ascii) (s : string) : string :=
  match s with
  | EmptyString => EmptyString
  | String x rest =>
      if Ascii.eqb x c then String d rest else String x (replaceFirst c d rest)
  end.

(** The number of occurrences of [c] in [s]. *)
Fixpoint occurrences (c : ascii) (s : string) : nat :=
  match s with
  | EmptyString => 0%nat
  | String x rest => ((if Ascii.eqb x c then 1 else 0) + occurrences c rest)%nat
  end.

(** The name shown beside a log entry: [log.agent.replace('_', ' ')]. *)
Definition entryLabel (entry : LogEntry) : string :=
  replaceFirst "_" " " (Agent_name (agent entry)).

(** The value of the Current Agent row, as [StatusRow] shows it:
    [(currentStep || 'IDLE').toString().replace('_', ' ')]. *)
Definition currentAgentLabel (a : App) : string :=
  replaceFirst "_" " "
    (match currentStep a with
     | Some t => Agent_name t
     | None => "IDLE"
     end).

(** ** Invariants of sessions, continued *)

(** The artifacts a state holds that took a turn to produce. *)
Definition produced (s : SharedState) : Z :=
  b2z (truthy (lessonPlan s)) + b2z (truthy (explanation s)) + b2z (truthy (quiz s))
  + b2z (truthy (feedback s)) + b2z (truthy (motivatorMessage s))
  + b2z (negb (is_null (reviewerApproved s))).

(** A state in which the artifacts came in the order of the pipeline, each
    for a turn, under the cap of [INITIAL_STATE]. *)
Definition ordered (s : SharedState) : Prop :=
  maxTurns s = 15
  /\ produced s <= turnCount s
  /\ (truthy (explanation s) = true -> truthy (lessonPlan s) = true)
  /\ (truthy (quiz s) = true -> truthy (explanation s) = true)
  /\ (truthy (studentAnswers s) = true -> truthy (quiz s) = true)
  /\ (truthy (feedback s) = true -> truthy (studentAnswers s) = true)
  /\ (truthy (motivatorMessage s) = true -> truthy (feedback s) = true)
  /\ (is_null (reviewerApproved s) = false -> truthy (motivatorMessage s) = true).

(** A property of states kept in a session: by the stored state, and by the
    state of every pending task, each chosen by the selector. *)
Definition keptBy (Q : SharedState -> Prop) (a : App) : Prop :=
  Q (state a)
  /\ Forall (fun task => taskAgent task = determineNextAgent (taskState task)
                         /\ Q (taskState task)) (pending a).

(** In a sequenced session the two progress flags say what is pending. *)
Definition flagsAgree (a : App) : Prop :=
  match pending a with
  | [] => isProcessing a = false /\ currentStep a = None
  | [Awaiting t _] => isProcessing a = true /\ currentStep a = Some t
  | [Scheduled _ _] => isProcessing a = false /\ currentStep a = None
  | _ :: _ :: _ => False
  end.

(** A state changes into another within one session: identity, cap and
    produced artifacts stay, the counter does not go back. *)
Definition extends (s s' : SharedState) : Prop :=
  topic s' = topic s
  /\ difficulty s' = difficulty s
  /\ maxTurns s' = maxTurns s
  /\ turnCount s <= turnCount s' <= turnCount s + 1
  /\ (truthy (lessonPlan s) = true -> lessonPlan s' = lessonPlan s)
  /\ (truthy (explanation s) = true -> explanation s' = explanation s)
  /\ (truthy (quiz s) = true -> quiz s' = quiz s)
  /\ (truthy (studentAnswers s) = true -> studentAnswers s' = studentAnswers s)
  /\ (truthy (feedback s) = true -> feedback s' = feedback s)
  /\ (truthy (motivatorMessage s) = true -> motivatorMessage s' = motivatorMessage s)
  /\ (is_null (reviewerApproved s) = false ->
      reviewerApproved s' = reviewerApproved s
      /\ reviewerComments s' = reviewerComments s
      /\ confidence s' = confidence s).



Definition supervisionEvents (text : string) (reply : ServiceReply) : list Event :=
  [ InputHuman text; ClickSubmit; InvokerSettles 0 reply ].

(** ** Tactics *)

(** The projections of a state the setters have been applied to. *)
Ltac project_state :=
  cbn [topic difficulty lessonPlan explanation quiz studentAnswers feedback
       motivatorMessage reviewerApproved reviewerComments confidence turnCount maxTurns
       set_topic set_difficulty set_lessonPlan set_explanation set_quiz
       set_studentAnswers set_feedback set_motivatorMessage set_reviewerApproved
       set_reviewerComments set_confidence set_turnCount] in *.

Ltac count_flags :=
  change (b2z true) with 1 in *; change (b2z false) with 0 in *.


(** ** How a successful turn goes on *)

(** What the tail of [runStep] leaves pending after it stored [updatedState]. *)
Definition scheduledAfter (updatedState : SharedState) : list Task :=
  match determineNextAgent updatedState with
  | HUMAN_APPROVAL | END => []
  | next => [Scheduled next updatedState]
  end.

(** Whether the tail of [runStep] shows the human prompt. *)
Definition suspendsAfter (updatedState : SharedState) : bool :=
  match determineNextAgent updatedState with
  | HUMAN_APPROVAL => true
  | _ => false
  end.

(** The entries the tail of [runStep] appends. *)
Definition entriesAfter (updatedState : SharedState) : list LogEntry :=
  match determineNextAgent updatedState with
  | HUMAN_APPROVAL =>
      [ mkLogEntry SUPERVISOR
          (Some "Human input required for student answers or system adjustment.")
          "Awaiting human intervention." decision ]
  | END =>
      [ mkLogEntry END None "Learning objective reached or max turns exceeded." status ]
  | _ => []
  end.

(** The entry a successful turn writes for the agent's output. *)
Definition outputEntry (targetAgent : Agent) (output : string) : LogEntry :=
  mkLogEntry targetAgent None output output_log.

(** The state [startSession] builds from the two inputs. *)
Definition freshState (a : App) : SharedState :=
  set_difficulty (difficultyInput a) (set_topic (topicInput a) INITIAL_STATE).

Definition initEntry (a : App) : LogEntry :=
  mkLogEntry SUPERVISOR None
    ("Initializing session for: " ++ topicInput a ++ " (" ++ difficultyInput a ++ ")") status.

(** Rounds of supervision, each a text typed and submitted and the call
    that follows, resolved. *)
Definition supervisionRounds (rounds : list (string * option string)) : list Event :=
  flat_map (fun round => supervisionEvents (fst round) (Generated (snd round))) rounds.

(** The session is suspended for the supervisor, with nothing pending. *)
Definition awaitsSupervisor (a : App) : Prop :=
  pending a = []
  /\ showHumanPrompt a = true
  /\ determineNextAgent (state a) = HUMAN_APPROVAL
  /\ studentCondition (state a) = false.

(** START clicked while the timer of a turn is pending; the timer then
    fires, and the call it issues resolves with [text]. *)
Definition restartEvents (text : option string) : list Event :=
  [ ClickStart; TimerFires 0; InvokerSettles 1 (Generated text) ].

(** The cells of the component and their setters. *)
Ltac project_app :=
  cbn [state logs isProcessing topicInput difficultyInput humanInput showHumanPrompt
       currentStep pending setState setLogs setIsProcessing setTopicInput
       setDifficultyInput setHumanInput setShowHumanPrompt setCurrentStep setPending
       addLog defer] in *.

(** * Properties *)

(** ** The selector *)

Lemma geb_false (x y : Z) : x < y -> (x >=? y) = false.
Proof. intro H. rewrite Z.geb_leb. apply Z.leb_gt. exact H. Qed.

Lemma geb_true (x y : Z) : x >= y -> (x >=? y) = true.
Proof. intro H. rewrite Z.geb_leb. apply Z.leb_le. lia. Qed.

Lemma js_lt_not_ge (x y : float) : js_lt x y = true -> js_ge x y = false.
Proof.
  unfold js_lt, js_ge.
  destruct (PrimFloat.compare x y); intro H; try reflexivity; discriminate H.
Qed.

(** Below the turn cap the first rule does not fire. *)
Lemma selector_below_cap (s : SharedState) :
  turnCount s < maxTurns s ->
  determineNextAgent s =
    if negb (truthy (lessonPlan s)) then CURRICULUM_PLANNER
    else if negb (truthy (explanation s)) then CONCEPT_EXPLAINER
    else if negb (truthy (quiz s)) then QUIZ_GENERATOR
    else if truthy (quiz s) && negb (truthy (studentAnswers s)) then HUMAN_APPROVAL
    else if truthy (studentAnswers s) && negb (truthy (feedback s)) then FEEDBACK_ANALYZER
    else if truthy (feedback s) && negb (truthy (motivatorMessage s)) then MOTIVATOR
    else if truthy (motivatorMessage s) && is_null (reviewerApproved s) then QUALITY_REVIEWER
    else if is_true (reviewerApproved s) && js_ge (confidence s) 0.8%float then END
    else if is_false (reviewerApproved s) then HUMAN_APPROVAL
    else END.
Proof.
  intro Hlt. unfold determineNextAgent. rewrite (geb_false _ _ Hlt). reflexivity.
Qed.

(** Whatever the selector answers other than [END], the cap is not reached. *)
Lemma selector_not_END_below_cap (s : SharedState) :
  determineNextAgent s <> END -> turnCount s < maxTurns s.
Proof.
  intro H. destruct (Z_lt_ge_dec (turnCount s) (maxTurns s)) as [Hlt | Hge].
  - exact Hlt.
  - exfalso. apply H. unfold determineNextAgent. rewrite (geb_true _ _ Hge). reflexivity.
Qed.

Lemma selector_FEEDBACK_ANALYZER (s : SharedState) :
  determineNextAgent s = FEEDBACK_ANALYZER -> truthy (studentAnswers s) = true.
Proof.
  selector_cases; try discriminate.
  intros _.
  match goal with
  | H : truthy (studentAnswers s) && _ = true |- _ => apply andb_prop in H; apply H
  end.
Qed.

(** The selector never answers [SUPERVISOR]. *)
Lemma selector_never_SUPERVISOR (s : SharedState) : determineNextAgent s <> SUPERVISOR.
Proof.
  selector_cases; discriminate.
Qed.

(** C1. When the Quality-Reviewer approved with a confidence below 0.8, every artifact
    is set and the turn cap is not reached, none of the rules 1 to 10 matches
    and the selector falls through to [END] (TERMINATE); so it does for a
    confidence of 0.5. *)
Theorem low_confidence_approval_terminates :
  (forall s : SharedState,
     reviewerApproved s = Some true ->
     js_lt (confidence s) 0.8%float = true ->
     truthy (lessonPlan s) = true ->
     truthy (explanation s) = true ->
     truthy (quiz s) = true ->
     truthy (studentAnswers s) = true ->
     truthy (feedback s) = true ->
     truthy (motivatorMessage s) = true ->
     turnCount s < maxTurns s ->
     determineNextAgent s = END)
  /\
  (forall s : SharedState,
     reviewerApproved s = Some true ->
     confidence s = 0.5%float ->
     truthy (lessonPlan s) = true ->
     truthy (explanation s) = true ->
     truthy (quiz s) = true ->
     truthy (studentAnswers s) = true ->
     truthy (feedback s) = true ->
     truthy (motivatorMessage s) = true ->
     turnCount s < maxTurns s ->
     determineNextAgent s = END).
Proof.
  assert (General : forall s : SharedState,
     reviewerApproved s = Some true ->
     js_lt (confidence s) 0.8%float = true ->
     truthy (lessonPlan s) = true ->
     truthy (explanation s) = true ->
     truthy (quiz s) = true ->
     truthy (studentAnswers s) = true ->
     truthy (feedback s) = true ->
     truthy (motivatorMessage s) = true ->
     turnCount s < maxTurns s ->
     determineNextAgent s = END).
  { intros s Hap Hconf Hlp Hex Hq Hsa Hfb Hmm Hlt.
    rewrite (selector_below_cap s Hlt).
    rewrite Hlp, Hex, Hq, Hsa, Hfb, Hmm, Hap, (js_lt_not_ge _ _ Hconf).
    reflexivity. }
  split.
  - exact General.
  - intros s Hap Hconf. apply General.
    + exact Hap.
    + rewrite Hconf. reflexivity.
Qed.

Lemma low_confidence_approval_terminates_witness :
  js_lt (confidence approvedLowConfidence) 0.8%float = true
  /\ determineNextAgent approvedLowConfidence = END
  /\ determineNextAgent approvedLowConfidence = END.
Proof.
  split; [ reflexivity | split ].
  - apply (proj1 low_confidence_approval_terminates approvedLowConfidence);
      reflexivity.
  - apply (proj2 low_confidence_approval_terminates approvedLowConfidence);
      reflexivity.
Defined.

(** C2. Once [turnCount >= maxTurns] the selector returns [END] (TERMINATE),
    whatever the other fields hold: rule 1 comes first. *)
Theorem turn_cap_terminates (s : SharedState) :
  turnCount s >= maxTurns s -> determineNextAgent s = END.
Proof.
  intro Hge. unfold determineNextAgent. rewrite (geb_true _ _ Hge). reflexivity.
Qed.

Lemma turn_cap_terminates_witness :
  determineNextAgent (set_turnCount 15 quizPosed) = END
  /\ determineNextAgent (set_turnCount 16 INITIAL_STATE) = END.
Proof.
  split.
  - apply (turn_cap_terminates (set_turnCount 15 quizPosed)).
    vm_compute. discriminate.
  - apply (turn_cap_terminates (set_turnCount 16 INITIAL_STATE)).
    vm_compute. discriminate.
Defined.

(** C6. With the quiz set and the answers unset (plan and explanation set,
    cap not reached) the selector returns [HUMAN_APPROVAL] (AWAIT_HUMAN) and
    the hint, which is rendered whenever the human prompt is, is the
    student's; with the motivator message set and [reviewerApproved = false]
    (the other artifacts set, cap not reached) it returns [HUMAN_APPROVAL]
    and the hint is the supervisor's. *)
Theorem human_routing_contexts :
  (forall s : SharedState,
     truthy (quiz s) = true ->
     truthy (studentAnswers s) = false ->
     truthy (lessonPlan s) = true ->
     truthy (explanation s) = true ->
     turnCount s < maxTurns s ->
     determineNextAgent s = HUMAN_APPROVAL
     /\ contextHint s = STUDENT_HINT
     /\ forall a : App, state a = s -> showHumanPrompt a = true ->
          renderedHint a = Some STUDENT_HINT)
  /\
  (forall s : SharedState,
     truthy (motivatorMessage s) = true ->
     reviewerApproved s = Some false ->
     truthy (lessonPlan s) = true ->
     truthy (explanation s) = true ->
     truthy (quiz s) = true ->
     truthy (studentAnswers s) = true ->
     truthy (feedback s) = true ->
     turnCount s < maxTurns s ->
     determineNextAgent s = HUMAN_APPROVAL
     /\ contextHint s = SUPERVISOR_HINT
     /\ forall a : App, state a = s -> showHumanPrompt a = true ->
          renderedHint a = Some SUPERVISOR_HINT).
Proof.
  split.
  - intros s Hq Hsa Hlp Hex Hlt.
    assert (Hhint : contextHint s = STUDENT_HINT).
    { unfold contextHint, studentCondition. rewrite Hq, Hsa. reflexivity. }
    split; [ | split; [ exact Hhint | ] ].
    + rewrite (selector_below_cap s Hlt). rewrite Hlp, Hex, Hq, Hsa. reflexivity.
    + intros a Hst Hshown. unfold renderedHint. rewrite Hshown, Hst, Hhint. reflexivity.
  - intros s Hmm Hap Hlp Hex Hq Hsa Hfb Hlt.
    assert (Hhint : contextHint s = SUPERVISOR_HINT).
    { unfold contextHint, studentCondition. rewrite Hq, Hsa. reflexivity. }
    split; [ | split; [ exact Hhint | ] ].
    + rewrite (selector_below_cap s Hlt).
      rewrite Hlp, Hex, Hq, Hsa, Hfb, Hmm, Hap. reflexivity.
    + intros a Hst Hshown. unfold renderedHint. rewrite Hshown, Hst, Hhint. reflexivity.
Qed.

Lemma human_routing_contexts_witness :
  (determineNextAgent quizPosed = HUMAN_APPROVAL
   /\ renderedHint (showing quizPosed true) = Some STUDENT_HINT)
  /\
  (determineNextAgent reviewRejected = HUMAN_APPROVAL
   /\ renderedHint (showing reviewRejected true) = Some SUPERVISOR_HINT).
Proof.
  split.
  - destruct (proj1 human_routing_contexts quizPosed
                eq_refl eq_refl eq_refl eq_refl eq_refl) as [Hnext [_ Hhint]].
    split; [ exact Hnext | apply Hhint; reflexivity ].
  - destruct (proj2 human_routing_contexts reviewRejected
                eq_refl eq_refl eq_refl eq_refl eq_refl eq_refl eq_refl eq_refl)
      as [Hnext [_ Hhint]].
    split; [ exact Hnext | apply Hhint; reflexivity ].
Defined.

(** ** One turn *)

Lemma nth_error_last {A : Type} (l : list A) (x : A) :
  nth_error (l ++ [x]) (length l) = Some x.
Proof.
  induction l as [ | y l IH]; simpl; [ reflexivity | exact IH ].
Qed.

Lemma removeAt_last {A : Type} (l : list A) (x : A) :
  removeAt (length l) (l ++ [x]) = l.
Proof.
  unfold removeAt. induction l as [ | y l IH]; simpl.
  - reflexivity.
  - simpl in IH. rewrite IH. reflexivity.
Qed.

Lemma app_cons_neq {A : Type} (l : list A) (x : A) (l' : list A) : l ++ x :: l' <> l.
Proof.
  intro H. apply (f_equal (@length A)) in H.
  rewrite length_app in H. simpl in H. lia.
Qed.

Lemma callAgent_nonempty (t : Agent) (s : SharedState) (reply : ServiceReply) (out : string) :
  callAgent t s reply = Some out -> nonempty out = true.
Proof.
  destruct reply as [text | ]; simpl; [ | discriminate ].
  intro H. injection H as <-. unfold js_or.
  destruct text as [str | ]; [ | reflexivity ].
  destruct (nonempty str) eqn:Hne; [ exact Hne | reflexivity ].
Qed.

Section Turn.

Variable JSON_parse : string -> option Review.

(** [runStep] issues the call and touches neither the state nor the prompt. *)
Lemma runStep_projections (t : Agent) (cur : SharedState) (a : App) :
  pending (runStep t cur a) = pending a ++ [Awaiting t cur]
  /\ state (runStep t cur a) = state a
  /\ logs (runStep t cur a) = logs a ++ [startEntry t]
  /\ showHumanPrompt (runStep t cur a) = showHumanPrompt a
  /\ isProcessing (runStep t cur a) = true
  /\ currentStep (runStep t cur a) = Some t.
Proof. repeat split. Qed.

(** A whole turn is [runStep] resumed where it awaited, with the tasks that
    were pending before it still pending. *)
Lemma turn_resumes (t : Agent) (cur : SharedState) (reply : ServiceReply) (a : App) :
  turn JSON_parse t cur reply a
  = runStep_settled JSON_parse t cur reply
      (addLog t ("Agent " ++ Agent_name t ++ " starting...") status None
         (setCurrentStep (Some t) (setIsProcessing true a))).
Proof.
  unfold turn, dispatch.
  change (pending (runStep t cur a)) with (pending a ++ [Awaiting t cur]).
  rewrite nth_error_last, removeAt_last. reflexivity.
Qed.

(** The state a successful turn computes differs from the one it was given
    in [turnCount], which is one more, and otherwise only as the agent's case
    of the [switch] says. *)
Lemma applyOutput_turnCount (t : Agent) (cur upd : SharedState) (out : string) :
  applyOutput JSON_parse t cur out = Some upd ->
  turnCount upd = turnCount cur + 1 /\ maxTurns upd = maxTurns cur.
Proof.
  destruct t; simpl; try (intro H; injection H as <-; split; reflexivity).
  destruct (JSON_parse out); intro H; [ injection H as <- | discriminate H ].
  split; reflexivity.
Qed.

(** A failed turn: the [catch] and the [finally] blocks only. *)
Lemma settled_failure (t : Agent) (cur : SharedState) (reply : ServiceReply) (a : App) :
  turnSucceeds JSON_parse t cur reply = false ->
  runStep_settled JSON_parse t cur reply a = runStep_finally (runStep_catch t a).
Proof.
  unfold turnSucceeds, runStep_settled.
  destruct (callAgent t cur reply) as [out | ]; [ | reflexivity ].
  destruct (applyOutput JSON_parse t cur out); [ discriminate | reflexivity ].
Qed.

(** A successful turn stores the state it computed. *)
Lemma settled_success_state (t : Agent) (cur upd : SharedState) (reply : ServiceReply)
    (out : string) (a : App) :
  callAgent t cur reply = Some out ->
  applyOutput JSON_parse t cur out = Some upd ->
  state (runStep_settled JSON_parse t cur reply a) = upd.
Proof.
  intros Hcall Happly. unfold runStep_settled. rewrite Hcall, Happly.
  destruct (determineNextAgent upd); reflexivity.
Qed.

Lemma turn_success_state (t : Agent) (cur upd : SharedState) (reply : ServiceReply)
    (out : string) (a : App) :
  callAgent t cur reply = Some out ->
  applyOutput JSON_parse t cur out = Some upd ->
  state (turn JSON_parse t cur reply a) = upd.
Proof.
  intros Hcall Happly. rewrite turn_resumes.
  apply (settled_success_state t cur upd reply out _ Hcall Happly).
Qed.

(** The ways a turn can fail are the two the error taxonomy names. *)
Lemma turn_fails_iff (t : Agent) (cur : SharedState) (reply : ServiceReply) :
  turnSucceeds JSON_parse t cur reply = false <->
  (callAgent t cur reply = None
   \/ (t = QUALITY_REVIEWER
       /\ exists out, callAgent t cur reply = Some out /\ JSON_parse out = None)).
Proof.
  unfold turnSucceeds. split.
  - destruct (callAgent t cur reply) as [out | ]; [ | intros _; left; reflexivity ].
    destruct t; simpl; try discriminate.
    destruct (JSON_parse out) eqn:Hp; [ discriminate | ].
    intros _. right. split; [ reflexivity | ]. exists out. split; [ reflexivity | exact Hp ].
  - intros [Hnone | [Ht [out [Hcall Hp]]]].
    + rewrite Hnone. reflexivity.
    + rewrite Hcall. subst t. simpl. rewrite Hp. reflexivity.
Qed.

(** What a failed turn leaves behind. *)
Lemma turn_failure (t : Agent) (cur : SharedState) (reply : ServiceReply) (a : App) :
  turnSucceeds JSON_parse t cur reply = false ->
  logs (turn JSON_parse t cur reply a) = logs a ++ [startEntry t; errorEntry t]
  /\ state (turn JSON_parse t cur reply a) = state a
  /\ pending (turn JSON_parse t cur reply a) = pending a
  /\ showHumanPrompt (turn JSON_parse t cur reply a) = showHumanPrompt a.
Proof.
  intro Hfail. rewrite turn_resumes. rewrite (settled_failure t cur reply _ Hfail).
  repeat split. simpl. rewrite <- app_assoc. reflexivity.
Qed.

End Turn.

(** C4. When the call of a turn fails (it rejects, or the Quality-Reviewer's
    output does not parse), [runStep] appends an [error] entry to the log
    (after the entry that announced the turn), leaves the session state as it
    was and schedules nothing: the selector then gives the decision it gave
    before, so the agent it had chosen is chosen again.  For the
    Concept-Explainer: [explanation] stays unset, [turnCount] stays, and the
    selector still returns [CONCEPT_EXPLAINER]. *)
Theorem failed_turn_leaves_state :
  forall (JSON_parse : string -> option Review) (t : Agent) (cur : SharedState)
         (reply : ServiceReply) (a : App),
    (callAgent t cur reply = None
     \/ (t = QUALITY_REVIEWER
         /\ exists out, callAgent t cur reply = Some out /\ JSON_parse out = None)) ->
    let a' := turn JSON_parse t cur reply a in
    (logs a' = logs a ++ [startEntry t; errorEntry t]
     /\ state a' = state a
     /\ pending a' = pending a
     /\ determineNextAgent (state a') = determineNextAgent (state a)
     /\ (determineNextAgent (state a) = t -> determineNextAgent (state a') = t))
    /\
    (t = CONCEPT_EXPLAINER ->
     truthy (lessonPlan (state a)) = true ->
     truthy (explanation (state a)) = false ->
     turnCount (state a) < maxTurns (state a) ->
     truthy (explanation (state a')) = false
     /\ turnCount (state a') = turnCount (state a)
     /\ determineNextAgent (state a') = CONCEPT_EXPLAINER).
Proof.
  intros JSON_parse t cur reply a Hfail a'.
  apply turn_fails_iff in Hfail.
  destruct (turn_failure JSON_parse t cur reply a Hfail) as [Hlogs [Hstate [Hpending _]]].
  fold a' in Hlogs, Hstate, Hpending.
  split.
  - split; [ exact Hlogs | ]. split; [ exact Hstate | ]. split; [ exact Hpending | ].
    rewrite Hstate. split; [ reflexivity | intro H; exact H ].
  - intros _ Hlp Hex Hlt. rewrite Hstate.
    split; [ exact Hex | ]. split; [ reflexivity | ].
    rewrite (selector_below_cap _ Hlt). rewrite Hlp, Hex. reflexivity.
Qed.

Lemma failed_turn_leaves_state_witness :
  let a := showing planned false in
  let a' := turn sampleParse CONCEPT_EXPLAINER planned ServiceError a in
  (logs a' = [startEntry CONCEPT_EXPLAINER; errorEntry CONCEPT_EXPLAINER]
   /\ state a' = planned
   /\ explanation (state a') = None
   /\ turnCount (state a') = 1
   /\ determineNextAgent (state a') = CONCEPT_EXPLAINER)
  /\ state (turn sampleParse QUALITY_REVIEWER reviewRejected
              (Generated (Some "not a judgment")) a) = planned.
Proof.
  intros a a'.
  destruct (failed_turn_leaves_state sampleParse CONCEPT_EXPLAINER planned ServiceError a
              (or_introl eq_refl)) as [[Hlogs [Hstate _]] Hexplainer].
  destruct (Hexplainer eq_refl eq_refl eq_refl eq_refl) as [_ [Htc Hsel]].
  fold a' in Hlogs, Hstate, Htc, Hsel.
  split.
  - split; [ exact Hlogs | ]. split; [ exact Hstate | ].
    split; [ rewrite Hstate; reflexivity | ].
    split; [ rewrite Htc; reflexivity | exact Hsel ].
  - apply (failed_turn_leaves_state sampleParse QUALITY_REVIEWER reviewRejected
             (Generated (Some "not a judgment")) a).
    right. split; [ reflexivity | ].
    exists "not a judgment". split; reflexivity.
Defined.

(** C8. A successful turn of the planner, the explainer, the quiz generator,
    the feedback analyzer or the motivator stores a state that holds the
    agent's output in the agent's own field ([lessonPlan], [explanation],
    [quiz], [feedback], [motivatorMessage]) and [turnCount + 1], and in which
    every other field is as in the state the turn was given.  A successful
    turn of the Quality-Reviewer stores, in the one [setState] of the turn,
    the three values of the parsed judgment in [reviewerApproved],
    [reviewerComments] and [confidence], with [turnCount + 1]; every other
    field is as it was. *)
Theorem successful_turn_writes_designated_field :
  forall (JSON_parse : string -> option Review) (cur : SharedState)
         (reply : ServiceReply) (out : string) (a : App),
    (callAgent CURRICULUM_PLANNER cur reply = Some out ->
     let s' := state (turn JSON_parse CURRICULUM_PLANNER cur reply a) in
     lessonPlan s' = Some out
     /\ explanation s' = explanation cur /\ quiz s' = quiz cur
     /\ studentAnswers s' = studentAnswers cur /\ feedback s' = feedback cur
     /\ motivatorMessage s' = motivatorMessage cur
     /\ reviewerApproved s' = reviewerApproved cur
     /\ reviewerComments s' = reviewerComments cur /\ confidence s' = confidence cur
     /\ topic s' = topic cur /\ difficulty s' = difficulty cur
     /\ maxTurns s' = maxTurns cur /\ turnCount s' = turnCount cur + 1)
    /\ (callAgent CONCEPT_EXPLAINER cur reply = Some out ->
        let s' := state (turn JSON_parse CONCEPT_EXPLAINER cur reply a) in
        explanation s' = Some out
        /\ lessonPlan s' = lessonPlan cur /\ quiz s' = quiz cur
        /\ studentAnswers s' = studentAnswers cur /\ feedback s' = feedback cur
        /\ motivatorMessage s' = motivatorMessage cur
        /\ reviewerApproved s' = reviewerApproved cur
        /\ reviewerComments s' = reviewerComments cur /\ confidence s' = confidence cur
        /\ topic s' = topic cur /\ difficulty s' = difficulty cur
        /\ maxTurns s' = maxTurns cur /\ turnCount s' = turnCount cur + 1)
    /\ (callAgent QUIZ_GENERATOR cur reply = Some out ->
        let s' := state (turn JSON_parse QUIZ_GENERATOR cur reply a) in
        quiz s' = Some out
        /\ lessonPlan s' = lessonPlan cur /\ explanation s' = explanation cur
        /\ studentAnswers s' = studentAnswers cur /\ feedback s' = feedback cur
        /\ motivatorMessage s' = motivatorMessage cur
        /\ reviewerApproved s' = reviewerApproved cur
        /\ reviewerComments s' = reviewerComments cur /\ confidence s' = confidence cur
        /\ topic s' = topic cur /\ difficulty s' = difficulty cur
        /\ maxTurns s' = maxTurns cur /\ turnCount s' = turnCount cur + 1)
    /\ (callAgent FEEDBACK_ANALYZER cur reply = Some out ->
        let s' := state (turn JSON_parse FEEDBACK_ANALYZER cur reply a) in
        feedback s' = Some out
        /\ lessonPlan s' = lessonPlan cur /\ explanation s' = explanation cur
        /\ quiz s' = quiz cur /\ studentAnswers s' = studentAnswers cur
        /\ motivatorMessage s' = motivatorMessage cur
        /\ reviewerApproved s' = reviewerApproved cur
        /\ reviewerComments s' = reviewerComments cur /\ confidence s' = confidence cur
        /\ topic s' = topic cur /\ difficulty s' = difficulty cur
        /\ maxTurns s' = maxTurns cur /\ turnCount s' = turnCount cur + 1)
    /\ (callAgent MOTIVATOR cur reply = Some out ->
        let s' := state (turn JSON_parse MOTIVATOR cur reply a) in
        motivatorMessage s' = Some out
        /\ lessonPlan s' = lessonPlan cur /\ explanation s' = explanation cur
        /\ quiz s' = quiz cur /\ studentAnswers s' = studentAnswers cur
        /\ feedback s' = feedback cur
        /\ reviewerApproved s' = reviewerApproved cur
        /\ reviewerComments s' = reviewerComments cur /\ confidence s' = confidence cur
        /\ topic s' = topic cur /\ difficulty s' = difficulty cur
        /\ maxTurns s' = maxTurns cur /\ turnCount s' = turnCount cur + 1)
    /\ (forall review : Review,
          callAgent QUALITY_REVIEWER cur reply = Some out ->
          JSON_parse out = Some review ->
          let s' := state (turn JSON_parse QUALITY_REVIEWER cur reply a) in
          reviewerApproved s' = review_approved review
          /\ reviewerComments s' = review_comments review
          /\ confidence s' = review_confidence review
          /\ lessonPlan s' = lessonPlan cur /\ explanation s' = explanation cur
          /\ quiz s' = quiz cur /\ studentAnswers s' = studentAnswers cur
          /\ feedback s' = feedback cur /\ motivatorMessage s' = motivatorMessage cur
          /\ topic s' = topic cur /\ difficulty s' = difficulty cur
          /\ maxTurns s' = maxTurns cur /\ turnCount s' = turnCount cur + 1).
Proof.
  intros JSON_parse cur reply out a.
  repeat apply conj;
    [ intros Hcall s' | intros Hcall s' | intros Hcall s' | intros Hcall s'
    | intros Hcall s' | intros review Hcall Hparse s' ];
    unfold s';
    match goal with
    | |- context [turn JSON_parse ?t cur reply a] =>
        let upd := fresh "upd" in
        let Happly := fresh "Happly" in
        destruct (applyOutput JSON_parse t cur out) as [upd | ] eqn:Happly;
          cbn [applyOutput] in Happly; try rewrite Hparse in Happly;
          [ injection Happly as <- | discriminate Happly ];
          erewrite (turn_success_state JSON_parse t cur _ reply out a Hcall)
            by (cbn [applyOutput]; try rewrite Hparse; reflexivity)
    end;
    repeat apply conj; reflexivity.
Qed.

Lemma successful_turn_writes_designated_field_witness :
  (let s' := state (turn sampleParse CONCEPT_EXPLAINER planned
                      (Generated (Some "explanation")) (showing planned false)) in
   explanation s' = Some "explanation"
   /\ lessonPlan s' = Some "plan" /\ quiz s' = None /\ turnCount s' = 2)
  /\ (let s' := state (turn sampleParse QUALITY_REVIEWER approvedLowConfidence
                         (Generated (Some "undecided 0.7"))
                         (showing approvedLowConfidence false)) in
      reviewerApproved s' = None
      /\ reviewerComments s' = Some "Undecided."
      /\ confidence s' = 0.7%float
      /\ motivatorMessage s' = Some "well done" /\ turnCount s' = 7).
Proof.
  split.
  - intro s'.
    destruct (proj1 (proj2 (successful_turn_writes_designated_field sampleParse planned
                (Generated (Some "explanation")) "explanation" (showing planned false)))
                eq_refl)
      as [Hexpl [Hplan [Hquiz [_ [_ [_ [_ [_ [_ [_ [_ [_ Hcount]]]]]]]]]]]].
    fold s' in Hexpl, Hplan, Hquiz, Hcount.
    repeat apply conj;
      [ exact Hexpl | rewrite Hplan; reflexivity | rewrite Hquiz; reflexivity
      | rewrite Hcount; reflexivity ].
  - intro s'.
    destruct (proj2 (proj2 (proj2 (proj2 (proj2
                (successful_turn_writes_designated_field sampleParse approvedLowConfidence
                   (Generated (Some "undecided 0.7")) "undecided 0.7"
                   (showing approvedLowConfidence false))))))
                (mkReview None (Some "Undecided.") 0.7%float) eq_refl eq_refl)
      as [Hver [Hcom [Hconf [_ [_ [_ [_ [_ [Hmot [_ [_ [_ Hcount]]]]]]]]]]]].
    fold s' in Hver, Hcom, Hconf, Hmot, Hcount.
    repeat apply conj;
      [ exact Hver | exact Hcom | exact Hconf | rewrite Hmot; reflexivity
      | rewrite Hcount; reflexivity ].
Defined.

(** C10. [runStep] called for an agent without a case in the [switch]
    ([HUMAN_APPROVAL], [SUPERVISOR] or [END]) still issues the call of
    [callAgent]; when the call resolves, the stored state is the given one
    with [turnCount + 1] and nothing else changed, and when it rejects the
    turn fails like any other.  [handleHumanSubmit] gives rise to such turns:
    it hands the selector's decision to [runStep] whatever the decision is. *)
Theorem caseless_agents_still_take_a_turn :
  (forall (JSON_parse : string -> option Review) (t : Agent) (cur : SharedState)
          (reply : ServiceReply) (a : App),
     t = HUMAN_APPROVAL \/ t = SUPERVISOR \/ t = END ->
     pending (runStep t cur a) = pending a ++ [Awaiting t cur]
     /\ (forall out, callAgent t cur reply = Some out ->
           state (turn JSON_parse t cur reply a)
           = set_turnCount (turnCount cur + 1) cur)
     /\ (callAgent t cur reply = None ->
           state (turn JSON_parse t cur reply a) = state a
           /\ logs (turn JSON_parse t cur reply a)
              = logs a ++ [startEntry t; errorEntry t]))
  /\
  (forall a : App,
     nonempty (humanInput a) = true ->
     handleHumanSubmit a
     = runStep (determineNextAgent (humanUpdate a)) (humanUpdate a) (humanMerge a)).
Proof.
  split.
  - intros JSON_parse t cur reply a Ht. split; [ reflexivity | split ].
    + intros out Hcall.
      apply (turn_success_state JSON_parse t cur _ reply out _ Hcall).
      destruct Ht as [-> | [-> | ->]]; reflexivity.
    + intros Hcall.
      assert (Hfail : turnSucceeds JSON_parse t cur reply = false)
        by (unfold turnSucceeds; rewrite Hcall; reflexivity).
      destruct (turn_failure JSON_parse t cur reply a Hfail) as [Hlogs [Hstate _]].
      split; [ exact Hstate | exact Hlogs ].
  - intros a Hin. unfold handleHumanSubmit. rewrite Hin. reflexivity.
Qed.

Lemma caseless_agents_still_take_a_turn_witness :
  state (turn sampleParse END (set_turnCount 15 reviewRejected) (Generated None)
           (showing (set_turnCount 15 reviewRejected) true))
  = set_turnCount 16 reviewRejected
  /\ pending (handleHumanSubmit
                (setHumanInput "go on" (runSequenced sampleParse toRejection initialApp)))
     = [Awaiting HUMAN_APPROVAL (set_topic "Photosynthesis" reviewRejected)]
  /\ pending (handleHumanSubmit (run sampleParse overlappingToCap initialApp))
     = [Awaiting END (set_turnCount 15 (set_topic "Photosynthesis" reviewRejected))].
Proof.
  split; [ | split ].
  - apply (proj1 (proj2 (proj1 caseless_agents_still_take_a_turn sampleParse END
             (set_turnCount 15 reviewRejected) (Generated None)
             (showing (set_turnCount 15 reviewRejected) true)
             (or_intror (or_intror eq_refl))))
             "No response generated.").
    reflexivity.
  - rewrite (proj2 caseless_agents_still_take_a_turn
               (setHumanInput "go on" (runSequenced sampleParse toRejection initialApp))
               eq_refl).
    vm_compute. reflexivity.
  - rewrite (proj2 caseless_agents_still_take_a_turn
               (run sampleParse overlappingToCap initialApp) eq_refl).
    vm_compute. reflexivity.
Defined.

(** ** Human input *)

(** What [handleHumanSubmit] does with a non-empty text, in either branch. *)
Lemma submit_nonempty (text : string) (a : App) :
  showHumanPrompt a = true ->
  nonempty text = true ->
  let upd := if studentCondition (state a)
             then set_studentAnswers (Some text) (state a) else state a in
  let entry := if studentCondition (state a)
               then answerEntry text else feedbackEntry text in
  submitHumanInput text a
  = runStep (determineNextAgent upd) upd
      (setState upd (setHumanInput "" (setLogs (logs a ++ [entry])
         (setShowHumanPrompt false (setHumanInput text a))))).
Proof.
  intros Hshown Hin. unfold submitHumanInput. rewrite Hshown. unfold handleHumanSubmit.
  change (humanInput (setHumanInput text a)) with text. rewrite Hin.
  unfold humanMerge, humanUpdate.
  change (state (setHumanInput text a)) with (state a).
  change (humanInput (setHumanInput text a)) with text.
  cbv zeta. destruct (studentCondition (state a)); reflexivity.
Qed.

(** C9. A non-empty text submitted while suspended in the supervisor branch
    (quiz unset, or answers already set) changes no field of the session
    state: the handler appends its log entry and hands the selector's decision
    on the very state that caused the suspension to [runStep], which is then
    awaiting that agent's call. *)
Theorem supervisor_submit_leaves_state :
  forall (text : string) (a : App),
    showHumanPrompt a = true ->
    nonempty text = true ->
    truthy (quiz (state a)) = false \/ truthy (studentAnswers (state a)) = true ->
    let merged := humanMerge (setHumanInput text a) in
    state merged = state a
    /\ logs merged = logs a ++ [feedbackEntry text]
    /\ submitHumanInput text a
       = runStep (determineNextAgent (state a)) (state a) merged
    /\ state (submitHumanInput text a) = state a
    /\ pending (submitHumanInput text a)
       = pending a ++ [Awaiting (determineNextAgent (state a)) (state a)].
Proof.
  intros text a Hshown Hin Hbranch merged.
  assert (Hcond : studentCondition (state a) = false).
  { unfold studentCondition. destruct Hbranch as [H | H]; rewrite H.
    - reflexivity.
    - apply andb_false_r. }
  assert (Hsub := submit_nonempty text a Hshown Hin). cbv zeta in Hsub.
  rewrite Hcond in Hsub.
  assert (Hmerged : merged
          = setState (state a) (setHumanInput "" (setLogs (logs a ++ [feedbackEntry text])
              (setShowHumanPrompt false (setHumanInput text a))))).
  { unfold merged, humanMerge, humanUpdate.
    change (state (setHumanInput text a)) with (state a).
    rewrite Hcond. reflexivity. }
  split; [ rewrite Hmerged; reflexivity | ].
  split; [ rewrite Hmerged; reflexivity | ].
  split; [ rewrite Hsub, Hmerged; reflexivity | ].
  split; rewrite Hsub; reflexivity.
Qed.

Lemma supervisor_submit_leaves_state_witness :
  state (submitHumanInput "go on" (showing reviewRejected true)) = reviewRejected
  /\ pending (submitHumanInput "go on" (showing reviewRejected true))
     = [Awaiting HUMAN_APPROVAL reviewRejected].
Proof.
  destruct (supervisor_submit_leaves_state "go on" (showing reviewRejected true)
              eq_refl eq_refl (or_intror eq_refl)) as [_ [_ [_ [Hstate Hpending]]]].
  split; [ exact Hstate | exact Hpending ].
Defined.


(** ** What holds of every session *)

Lemma Forall_removeAt {A : Type} (P : A -> Prop) (n : nat) (l : list A) :
  Forall P l -> Forall P (removeAt n l).
Proof.
  unfold removeAt. revert n. induction l as [ | x l IH]; intros n H.
  - destruct n; constructor.
  - inversion H as [ | y l' Hx Hl]; subst. destruct n as [ | n]; simpl.
    + exact Hl.
    + constructor; [ exact Hx | apply IH; exact Hl ].
Qed.

Lemma Forall_nth_error {A : Type} (P : A -> Prop) (n : nat) (l : list A) (x : A) :
  Forall P l -> nth_error l n = Some x -> P x.
Proof.
  intros H Hn. apply (proj1 (Forall_forall P l) H). apply (nth_error_In l n Hn).
Qed.

Section WellFormed.

Variable JSON_parse : string -> option Review.

(** A turn the selector chose keeps feedback behind answers. *)
Lemma answered_step (cur upd : SharedState) (out : string) :
  answered cur ->
  applyOutput JSON_parse (determineNextAgent cur) cur out = Some upd ->
  answered upd.
Proof.
  intros Hans Happly.
  destruct (determineNextAgent cur) eqn:Hsel; simpl in Happly;
    try (injection Happly as <-; exact Hans).
  - injection Happly as <-. intros _. simpl.
    apply selector_FEEDBACK_ANALYZER. exact Hsel.
  - destruct (JSON_parse out); [ injection Happly as <- | discriminate ]. exact Hans.
Qed.

Lemma wellFormed_runStep (t : Agent) (cur : SharedState) (b : App) :
  wellFormed b -> wellChosen (Awaiting t cur) -> wellFormed (runStep t cur b).
Proof.
  intros [Hans Hall] Htask. split.
  - exact Hans.
  - change (pending (runStep t cur b)) with (pending b ++ [Awaiting t cur]).
    apply Forall_app. split; [ exact Hall | ]. constructor; [ exact Htask | constructor ].
Qed.

Lemma wellFormed_settled (t : Agent) (cur : SharedState) (reply : ServiceReply) (a : App) :
  wellFormed a -> wellChosen (Awaiting t cur) ->
  wellFormed (runStep_settled JSON_parse t cur reply a).
Proof.
  intros [Hans Hall] [Ht Hcur]. simpl in Ht, Hcur. subst t.
  unfold runStep_settled.
  destruct (callAgent (determineNextAgent cur) cur reply) as [out | ];
    [ | split; assumption ].
  destruct (applyOutput JSON_parse (determineNextAgent cur) cur out) as [upd | ] eqn:Happly;
    [ | split; assumption ].
  assert (Hupd : answered upd) by (apply (answered_step cur upd out); assumption).
  destruct (determineNextAgent upd) eqn:Hnext;
    try (split; [ exact Hupd | exact Hall ]);
    (split; [ exact Hupd | ]);
    (apply Forall_app; split; [ exact Hall | ]);
    (constructor; [ | constructor ]);
    (split; [ simpl; symmetry; exact Hnext | exact Hupd ]).
Qed.

(** Every event keeps a session well formed, in whatever order events come. *)
Lemma wellFormed_dispatch (e : Event) (a : App) :
  wellFormed a -> wellFormed (dispatch JSON_parse e a).
Proof.
  intro Hwf. destruct e as [v | v | v | | | n reply | n]; unfold dispatch.
  - destruct (inputsDisabled a); exact Hwf.
  - destruct (inputsDisabled a); exact Hwf.
  - destruct (showHumanPrompt a); exact Hwf.
  - (* START TUTORING *)
    destruct (startDisabled a); [ exact Hwf | ].
    unfold startSession. destruct (negb (nonempty (topicInput a))); [ exact Hwf | ].
    destruct Hwf as [_ Hall].
    apply wellFormed_runStep.
    + split; [ intro H; discriminate H | exact Hall ].
    + split; [ reflexivity | intro H; discriminate H ].
  - (* SUBMIT *)
    destruct (showHumanPrompt a); [ | exact Hwf ].
    unfold handleHumanSubmit.
    destruct (nonempty (humanInput a)) eqn:Hin; [ simpl | exact Hwf ].
    destruct Hwf as [Hans Hall].
    assert (Hupd : answered (humanUpdate a)).
    { unfold humanUpdate. destruct (studentCondition (state a)).
      - intros _. simpl. exact Hin.
      - exact Hans. }
    apply wellFormed_runStep.
    + split; [ | unfold humanMerge; destruct (studentCondition (state a)); exact Hall ].
      exact Hupd.
    + split; [ reflexivity | exact Hupd ].
  - (* a call settles *)
    destruct (nth_error (pending a) n) as [[t cur | next upd] | ] eqn:Hn; try exact Hwf.
    destruct Hwf as [Hans Hall].
    apply wellFormed_settled.
    + split; [ exact Hans | apply Forall_removeAt; exact Hall ].
    + apply (Forall_nth_error wellChosen n (pending a) _ Hall Hn).
  - (* a timer fires *)
    destruct (nth_error (pending a) n) as [[t cur | next upd] | ] eqn:Hn; try exact Hwf.
    destruct Hwf as [Hans Hall].
    apply wellFormed_runStep.
    + split; [ exact Hans | apply Forall_removeAt; exact Hall ].
    + apply (Forall_nth_error wellChosen n (pending a) _ Hall Hn).
Qed.

Lemma wellFormed_initialApp : wellFormed initialApp.
Proof.
  split; [ intro H; discriminate H | constructor ].
Qed.

Lemma wellFormed_run (events : list Event) (a : App) :
  wellFormed a -> wellFormed (run JSON_parse events a).
Proof.
  revert a. induction events as [ | e events IH]; intros a Hwf.
  - exact Hwf.
  - simpl. apply IH. apply wellFormed_dispatch. exact Hwf.
Qed.

(** In every session, while the student is being asked there is no feedback
    yet. *)
Lemma student_prompt_has_no_feedback (events : list Event) :
  let a := run JSON_parse events initialApp in
  studentCondition (state a) = true -> truthy (feedback (state a)) = false.
Proof.
  intros a Hcond.
  destruct (wellFormed_run events initialApp wellFormed_initialApp) as [Hans _].
  fold a in Hans. unfold studentCondition in Hcond. apply andb_prop in Hcond.
  destruct Hcond as [_ Hsa].
  destruct (truthy (feedback (state a))) eqn:Hfb; [ | reflexivity ].
  rewrite (Hans Hfb) in Hsa. discriminate Hsa.
Qed.

End WellFormed.

(** ** The human prompt in every session *)

Section Prompt.

Variable JSON_parse : string -> option Review.

Lemma promptKept_settled (t : Agent) (cur : SharedState) (reply : ServiceReply) (a : App) :
  promptKept a -> promptKept (runStep_settled JSON_parse t cur reply a).
Proof.
  intros [Htext Hasked]. unfold runStep_settled.
  destruct (callAgent t cur reply) as [out | ]; [ | split; assumption ].
  destruct (applyOutput JSON_parse t cur out) as [upd | ]; [ | split; assumption ].
  cbv zeta.
  destruct (determineNextAgent upd) eqn:Hnext; unfold promptKept, runStep_finally;
    project_app; rewrite ?Hnext;
    (split; [ first [ exact Htext | intro H; discriminate H ]
            | first [ intro H; discriminate H | intros _ _; reflexivity ] ]).
Qed.

(** Every event keeps what holds of the prompt, in whatever order events
    come. *)
Lemma promptKept_dispatch (e : Event) (a : App) :
  promptKept a -> promptKept (dispatch JSON_parse e a).
Proof.
  intro Hkept. destruct e as [v | v | v | | | n reply | n]; unfold dispatch.
  - destruct (inputsDisabled a); exact Hkept.
  - destruct (inputsDisabled a); exact Hkept.
  - destruct (showHumanPrompt a) eqn:Hshown; [ | exact Hkept ].
    split; [ intro H; cbn in H; rewrite Hshown in H; discriminate H | ].
    intros _ _. exact Hshown.
  - (* START TUTORING *)
    destruct (startDisabled a); [ exact Hkept | ].
    unfold startSession. destruct (negb (nonempty (topicInput a))); [ exact Hkept | ].
    destruct Hkept as [Htext _]. cbv zeta. unfold runStep. split.
    + exact Htext.
    + intro H. discriminate H.
  - (* SUBMIT *)
    destruct (showHumanPrompt a); [ | exact Hkept ].
    unfold handleHumanSubmit.
    destruct (nonempty (humanInput a)) eqn:Hin; [ cbn [negb] | exact Hkept ].
    cbv zeta. unfold runStep, humanMerge, humanUpdate. split.
    + intros _. destruct (studentCondition (state a)); reflexivity.
    + destruct (studentCondition (state a)) eqn:Hcond; project_app.
      * intros _ H. unfold studentCondition in H. project_state.
        change (truthy (Some (humanInput a))) with (nonempty (humanInput a)) in H.
        rewrite Hin, andb_false_r in H. discriminate H.
      * intros _ H. rewrite Hcond in H. discriminate H.
  - (* a call settles *)
    destruct (nth_error (pending a) n) as [[t cur | next upd] | ]; try exact Hkept.
    apply promptKept_settled. exact Hkept.
  - (* a timer fires *)
    destruct (nth_error (pending a) n) as [[t cur | next upd] | ]; exact Hkept.
Qed.

Lemma promptKept_initialApp : promptKept initialApp.
Proof.
  split; [ intros _; reflexivity | intro H; discriminate H ].
Qed.

Lemma promptKept_run (events : list Event) (a : App) :
  promptKept a -> promptKept (run JSON_parse events a).
Proof.
  revert a. induction events as [ | e events IH]; intros a Hkept.
  - exact Hkept.
  - simpl. apply IH. apply promptKept_dispatch. exact Hkept.
Qed.

(** Text typed and SUBMIT clicked are the two events of [submitHumanInput]. *)
Lemma submitHumanInput_events (text : string) (a : App) :
  run JSON_parse [InputHuman text; ClickSubmit] a = submitHumanInput text a.
Proof.
  unfold run, submitHumanInput. cbn [fold_left]. unfold dispatch.
  destruct (showHumanPrompt a) eqn:Hshown.
  - change (showHumanPrompt (setHumanInput text a)) with (showHumanPrompt a).
    rewrite Hshown. reflexivity.
  - rewrite Hshown. reflexivity.
Qed.

End Prompt.

(** C5. While the session is not suspended ([showHumanPrompt] is not set),
    [submitHumanInput] changes nothing, whatever the text: neither the
    session state nor the activity log, nor anything else of the component.
    In every session, sequenced or not, the text area and the SUBMIT button
    are not rendered then, so the two events of a submission are without
    effect; and were [handleHumanSubmit] called all the same, it would find
    no text and return at its first line. *)
Theorem unsuspended_submit_is_without_effect :
  forall (JSON_parse : string -> option Review) (events : list Event) (text : string),
    let a := run JSON_parse events initialApp in
    showHumanPrompt a = false ->
    (submitHumanInput text a = a
     /\ state (submitHumanInput text a) = state a
     /\ logs (submitHumanInput text a) = logs a)
    /\ run JSON_parse [InputHuman text; ClickSubmit] a = a
    /\ humanInput a = ""
    /\ handleHumanSubmit a = a.
Proof.
  intros JSON_parse events text a Hhidden.
  assert (Hsubmit : submitHumanInput text a = a)
    by (unfold submitHumanInput; rewrite Hhidden; reflexivity).
  destruct (promptKept_run JSON_parse events initialApp promptKept_initialApp)
    as [Htext _].
  fold a in Htext. specialize (Htext Hhidden).
  split; [ rewrite Hsubmit; repeat apply conj; reflexivity | ].
  split; [ rewrite submitHumanInput_events; exact Hsubmit | ].
  split; [ exact Htext | ].
  unfold handleHumanSubmit. rewrite Htext. reflexivity.
Qed.

Lemma unsuspended_submit_is_without_effect_witness :
  let a := run sampleParse
             [ InputTopic "Photosynthesis"; ClickStart; say 0 "plan"; TimerFires 0;
               InputHuman "B, A, C" ] initialApp in
  showHumanPrompt a = false
  /\ nonempty "B, A, C" = true
  /\ state (submitHumanInput "B, A, C" a) = state a
  /\ logs (submitHumanInput "B, A, C" a) = logs a
  /\ handleHumanSubmit a = a.
Proof.
  intro a.
  destruct (unsuspended_submit_is_without_effect sampleParse
              [ InputTopic "Photosynthesis"; ClickStart; say 0 "plan"; TimerFires 0;
                InputHuman "B, A, C" ] "B, A, C" eq_refl)
    as [[_ [Hstate Hlogs]] [_ [_ Hhandler]]].
  fold a in Hstate, Hlogs, Hhandler.
  repeat apply conj; [ reflexivity | reflexivity | exact Hstate | exact Hlogs | exact Hhandler ].
Defined.

(** C7. With plan, explanation and quiz set, the answers unset and the cap
    not reached, the selector returns [HUMAN_APPROVAL] and the hint is the
    student's.  In every session, sequenced or not, whose stored state is
    such a state, the prompt is shown with that hint, and a non-empty text
    submitted is written as it is into [studentAnswers] and into no other
    field; the selector on the updated state returns [FEEDBACK_ANALYZER],
    whose call is then pending. *)
Theorem student_submit_routes_to_feedback :
  forall JSON_parse : string -> option Review,
    (forall s : SharedState,
       truthy (lessonPlan s) = true ->
       truthy (explanation s) = true ->
       truthy (quiz s) = true ->
       truthy (studentAnswers s) = false ->
       turnCount s < maxTurns s ->
       determineNextAgent s = HUMAN_APPROVAL /\ contextHint s = STUDENT_HINT)
    /\
    (forall (events : list Event) (text : string),
       let a := run JSON_parse events initialApp in
       truthy (lessonPlan (state a)) = true ->
       truthy (explanation (state a)) = true ->
       truthy (quiz (state a)) = true ->
       truthy (studentAnswers (state a)) = false ->
       turnCount (state a) < maxTurns (state a) ->
       nonempty text = true ->
       renderedHint a = Some STUDENT_HINT
       /\ state (submitHumanInput text a) = set_studentAnswers (Some text) (state a)
       /\ studentAnswers (state (submitHumanInput text a)) = Some text
       /\ determineNextAgent (state (submitHumanInput text a)) = FEEDBACK_ANALYZER
       /\ pending (submitHumanInput text a)
          = pending a
            ++ [Awaiting FEEDBACK_ANALYZER (set_studentAnswers (Some text) (state a))]
       /\ (let s' := state (submitHumanInput text a) in
           lessonPlan s' = lessonPlan (state a)
           /\ explanation s' = explanation (state a)
           /\ quiz s' = quiz (state a)
           /\ feedback s' = feedback (state a)
           /\ motivatorMessage s' = motivatorMessage (state a)
           /\ reviewerApproved s' = reviewerApproved (state a)
           /\ reviewerComments s' = reviewerComments (state a)
           /\ confidence s' = confidence (state a)
           /\ topic s' = topic (state a)
           /\ difficulty s' = difficulty (state a)
           /\ turnCount s' = turnCount (state a)
           /\ maxTurns s' = maxTurns (state a))).
Proof.
  intro JSON_parse.
  assert (Hasked : forall s : SharedState,
            truthy (lessonPlan s) = true -> truthy (explanation s) = true ->
            truthy (quiz s) = true -> truthy (studentAnswers s) = false ->
            turnCount s < maxTurns s ->
            determineNextAgent s = HUMAN_APPROVAL /\ contextHint s = STUDENT_HINT).
  { intros s Hlp Hex Hq Hsa Hlt. split.
    - rewrite (selector_below_cap _ Hlt). rewrite Hlp, Hex, Hq, Hsa. reflexivity.
    - unfold contextHint, studentCondition. rewrite Hq, Hsa. reflexivity. }
  split; [ exact Hasked | ].
  intros events text a Hlp Hex Hq Hsa Hlt Hin.
  destruct (Hasked (state a) Hlp Hex Hq Hsa Hlt) as [Hsel Hhint].
  assert (Hcond : studentCondition (state a) = true).
  { unfold studentCondition. rewrite Hq, Hsa. reflexivity. }
  assert (Hfb : truthy (feedback (state a)) = false)
    by (apply (student_prompt_has_no_feedback JSON_parse events); exact Hcond).
  destruct (promptKept_run JSON_parse events initialApp promptKept_initialApp)
    as [_ Hprompt].
  fold a in Hprompt. assert (Hshown := Hprompt Hsel Hcond).
  assert (Hsub := submit_nonempty text a Hshown Hin). cbv zeta in Hsub.
  rewrite Hcond in Hsub.
  assert (Hnext : determineNextAgent (set_studentAnswers (Some text) (state a))
                  = FEEDBACK_ANALYZER).
  { rewrite selector_below_cap by exact Hlt. simpl.
    rewrite Hlp, Hex, Hq, Hin, Hfb. reflexivity. }
  split; [ unfold renderedHint; rewrite Hshown, Hhint; reflexivity | ].
  rewrite Hsub.
  split; [ reflexivity | ]. split; [ reflexivity | ].
  split; [ exact Hnext | ].
  split; [ | repeat apply conj; reflexivity ].
  change (pending a ++ [Awaiting (determineNextAgent (set_studentAnswers (Some text) (state a)))
                          (set_studentAnswers (Some text) (state a))]
          = pending a ++ [Awaiting FEEDBACK_ANALYZER
                            (set_studentAnswers (Some text) (state a))]).
  rewrite Hnext. reflexivity.
Qed.

Lemma student_submit_routes_to_feedback_witness :
  let a := run sampleParse toQuiz initialApp in
  let a' := submitHumanInput "B, A, C" a in
  determineNextAgent (state a) = HUMAN_APPROVAL
  /\ studentAnswers (state a') = Some "B, A, C"
  /\ determineNextAgent (state a') = FEEDBACK_ANALYZER.
Proof.
  intros a a'.
  destruct (student_submit_routes_to_feedback sampleParse) as [Hasked Hsubmit].
  destruct (Hasked (state a) eq_refl eq_refl eq_refl eq_refl eq_refl) as [Hsel _].
  destruct (Hsubmit toQuiz "B, A, C" eq_refl eq_refl eq_refl eq_refl eq_refl eq_refl)
    as [_ [_ [Hanswers [Hnext _]]]].
  fold a in Hanswers, Hnext. fold a' in Hanswers, Hnext.
  repeat apply conj; [ exact Hsel | exact Hanswers | exact Hnext ].
Defined.

(** ** The turn counter over a session *)

Section Invariant.

Variable JSON_parse : string -> option Review.

(** A turn the selector chose in an opening session either keeps the session
    opening or ends at the posed quiz (or at the cap). *)
Lemma opening_step (cur upd : SharedState) (out : string) :
  opening cur ->
  turnCount cur < maxTurns cur ->
  nonempty out = true ->
  applyOutput JSON_parse (determineNextAgent cur) cur out = Some upd ->
  opening upd
  \/ determineNextAgent upd = HUMAN_APPROVAL
  \/ determineNextAgent upd = END.
Proof.
  intros [Hphi Hsa] Hlt Hout Happly.
  rewrite (selector_below_cap cur Hlt) in Happly.
  unfold owed in Hphi.
  destruct (truthy (lessonPlan cur)) eqn:Hlp;
    [ destruct (truthy (explanation cur)) eqn:Hex;
      [ destruct (truthy (quiz cur)) eqn:Hq | ] | ];
    simpl in Happly.
  - (* all three set: the human is asked, a turn changes no artifact *)
    rewrite Hsa in Happly. simpl in Happly. injection Happly as <-.
    right. unfold determineNextAgent. simpl.
    destruct (turnCount cur + 1 >=? maxTurns cur); [ right; reflexivity | left ].
    rewrite Hlp, Hex, Hq, Hsa. reflexivity.
  - injection Happly as <-. left. split; [ | exact Hsa ].
    unfold owed. simpl. rewrite Hlp, Hex, Hout. simpl in *. lia.
  - injection Happly as <-. left. split; [ | exact Hsa ].
    unfold owed. simpl. rewrite Hlp, Hout. simpl in *.
    destruct (truthy (quiz cur)); simpl in *; lia.
  - injection Happly as <-. left. split; [ | exact Hsa ].
    unfold owed. simpl. rewrite Hout. simpl in *.
    destruct (truthy (explanation cur)); destruct (truthy (quiz cur)); simpl in *; lia.
Qed.

(** [runStep] called while nothing is pending establishes the invariant for
    the call it issues. *)
Lemma invariant_runStep (t : Agent) (cur : SharedState) (b : App) :
  pending b = [] ->
  state b = cur ->
  maxTurns cur = 15 ->
  turnCount cur < 15 ->
  t = determineNextAgent cur ->
  (showHumanPrompt b = true -> opening cur) ->
  invariant (runStep t cur b).
Proof.
  intros Hp Hst Hmax Hlt Ht Hopen.
  unfold invariant.
  change (pending (runStep t cur b)) with (pending b ++ [Awaiting t cur]).
  change (state (runStep t cur b)) with (state b).
  change (showHumanPrompt (runStep t cur b)) with (showHumanPrompt b).
  rewrite Hp, Hst. simpl.
  refine (conj Hmax (conj _ (conj eq_refl (conj Ht (conj Hlt Hopen))))).
  lia.
Qed.

(** The settling of the one pending call keeps the invariant. *)
Lemma invariant_settled (t : Agent) (cur : SharedState) (reply : ServiceReply) (a : App) :
  invariant a ->
  pending a = [Awaiting t cur] ->
  invariant (runStep_settled JSON_parse t cur reply (setPending [] a)).
Proof.
  unfold invariant. intros Hinv Hp. rewrite Hp in Hinv.
  destruct Hinv as [Hmax [Hcap [Hst [Ht [Hlt Hopen]]]]].
  simpl in Hst, Ht. subst cur t.
  set (cur := state a) in *.
  destruct (turnSucceeds JSON_parse (determineNextAgent cur) cur reply) eqn:Hok.
  - unfold turnSucceeds in Hok. unfold runStep_settled.
    destruct (callAgent (determineNextAgent cur) cur reply) as [out | ] eqn:Hcall;
      [ | discriminate ].
    destruct (applyOutput JSON_parse (determineNextAgent cur) cur out) as [upd | ] eqn:Happly;
      [ | discriminate ].
    clear Hok.
    destruct (applyOutput_turnCount JSON_parse _ cur upd out Happly) as [Htc Hmx].
    assert (Hout := callAgent_nonempty _ cur reply out Hcall).
    assert (Hmax' : maxTurns upd = 15) by lia.
    assert (Hcap' : turnCount upd <= 15) by lia.
    assert (Hopen' : showHumanPrompt a = true ->
                     opening upd \/ determineNextAgent upd = HUMAN_APPROVAL
                     \/ determineNextAgent upd = END).
    { intro Hshown. apply (opening_step cur upd out).
      - apply Hopen. exact Hshown.
      - lia.
      - exact Hout.
      - exact Happly. }
    assert (Hbelow : determineNextAgent upd <> END -> turnCount upd < 15).
    { intro Hne. rewrite <- Hmax'. apply selector_not_END_below_cap. exact Hne. }
    assert (Hearly : showHumanPrompt a = true -> turnCount cur <= 3).
    { intro Hshown. destruct (Hopen Hshown) as [Hphi _]. unfold owed, b2z in Hphi.
      destruct (negb (truthy (lessonPlan cur)));
        destruct (negb (truthy (explanation cur)));
        destruct (negb (truthy (quiz cur))); lia. }
    assert (Hkeeps : forall next,
              determineNextAgent upd = next ->
              next <> HUMAN_APPROVAL -> next <> END ->
              invariant3 upd [Scheduled next upd] (showHumanPrompt a)).
    { intros next Hnext Hnh Hne.
      refine (conj Hmax' (conj Hcap' (conj eq_refl (conj _ (conj _ _))))).
      - simpl. symmetry. exact Hnext.
      - apply Hbelow. rewrite Hnext. exact Hne.
      - intro Hshown. destruct (Hopen' Hshown) as [Ho | [Hh | He]].
        + exact Ho.
        + exfalso. apply Hnh. rewrite <- Hnext. exact Hh.
        + exfalso. apply Hne. rewrite <- Hnext. exact He. }
    destruct (determineNextAgent upd) eqn:Hnext;
      try (apply (Hkeeps _ eq_refl); discriminate).
    + (* HUMAN_APPROVAL *)
      refine (conj Hmax' (conj Hcap' _)).
      intros _. change (turnCount upd < 15). apply Hbelow. discriminate.
    + (* END *)
      refine (conj Hmax' (conj Hcap' _)).
      intro Hshown. change (showHumanPrompt a = true) in Hshown.
      change (turnCount upd < 15). specialize (Hearly Hshown). lia.
  - rewrite (settled_failure JSON_parse _ cur reply _ Hok).
    refine (conj Hmax (conj Hcap _)).
    intros _. exact Hlt.
Qed.

(** Every event, handled in sequence, keeps the invariant. *)
Lemma invariant_dispatchSequenced (e : Event) (a : App) :
  invariant a -> invariant (dispatchSequenced JSON_parse e a).
Proof.
  intro Hinv. destruct e as [v | v | v | | | n reply | n];
    unfold dispatchSequenced, dispatch, idle.
  - destruct (inputsDisabled a); exact Hinv.
  - destruct (inputsDisabled a); exact Hinv.
  - destruct (showHumanPrompt a) eqn:Hshown; exact Hinv.
  - (* START TUTORING *)
    destruct (pending a) eqn:Hp; [ | exact Hinv ].
    destruct (startDisabled a); [ exact Hinv | ].
    unfold startSession. destruct (negb (nonempty (topicInput a))); [ exact Hinv | ].
    apply invariant_runStep.
    + exact Hp.
    + reflexivity.
    + reflexivity.
    + reflexivity.
    + reflexivity.
    + intros _. split; [ unfold owed, b2z; simpl; lia | reflexivity ].
  - (* SUBMIT *)
    destruct (pending a) eqn:Hp; [ | exact Hinv ].
    destruct (showHumanPrompt a) eqn:Hshown; [ | exact Hinv ].
    unfold handleHumanSubmit.
    destruct (nonempty (humanInput a)) eqn:Hin; [ simpl | exact Hinv ].
    unfold invariant in Hinv. rewrite Hp, Hshown in Hinv.
    destruct Hinv as [Hmax [Hcap Hidle]]. specialize (Hidle eq_refl).
    unfold humanMerge, humanUpdate.
    destruct (studentCondition (state a)) eqn:Hcond; apply invariant_runStep;
      try reflexivity; try assumption; intro H; discriminate H.
  - (* a call settles *)
    assert (Hshape := Hinv). unfold invariant in Hshape.
    destruct (pending a) as [ | task [ | task' rest]] eqn:Hp.
    + destruct n; exact Hinv.
    + destruct n as [ | n]; simpl.
      * destruct task as [t cur | next upd]; [ | exact Hinv ].
        apply invariant_settled; assumption.
      * destruct n; exact Hinv.
    + destruct Hshape as [_ [_ []]].
  - (* a timer fires *)
    assert (Hshape := Hinv). unfold invariant in Hshape.
    destruct (pending a) as [ | task [ | task' rest]] eqn:Hp.
    + destruct n; exact Hinv.
    + destruct n as [ | n]; simpl.
      * destruct task as [t cur | next upd]; [ exact Hinv | ].
        destruct Hshape as [Hmax [Hcap [Hst [Ht [Hlt Hopen]]]]].
        simpl in Hst, Ht. subst upd.
        apply invariant_runStep; try assumption; reflexivity.
      * destruct n; exact Hinv.
    + destruct Hshape as [_ [_ []]].
Qed.

Lemma invariant_initialApp : invariant initialApp.
Proof.
  unfold invariant, invariant3. simpl.
  repeat apply conj; try reflexivity; try lia; intro H; discriminate H.
Qed.

Lemma invariant_runSequenced (events : list Event) (a : App) :
  invariant a -> invariant (runSequenced JSON_parse events a).
Proof.
  revert a. induction events as [ | e events IH]; intros a Hinv.
  - exact Hinv.
  - simpl. apply IH. apply invariant_dispatchSequenced. exact Hinv.
Qed.

End Invariant.

(** C3. The code at the failing input [overlapping].  START is clicked again
    while the timer of the first turn is pending: the button is disabled by
    [isProcessing] alone, which [finally] has reset, and [startSession] leaves
    prompt and pending turn as they are.  Two chains of turns then overlap;
    one brings the stored state to [turnCount = maxTurns = 15] while the
    prompt the other has put on screen is shown.  There the selector answers
    [END], which the tail of [runStep] does not run ([next !== Agent.END]);
    [handleHumanSubmit] has no such test and runs it: the call resolves and
    [turnCount] is 16 with [maxTurns] 15. *)
Theorem overlapping_sessions_exceed_the_cap :
  let capped := run sampleParse overlappingToCap initialApp in
  let a := run sampleParse overlapping initialApp in
  (turnCount (state capped) = 15
   /\ showHumanPrompt capped = true
   /\ pending capped = []
   /\ determineNextAgent (state capped) = END)
  /\ a = dispatch sampleParse (say 0 "noted") (handleHumanSubmit capped)
  /\ turnCount (state a) = 16
  /\ maxTurns (state a) = 15
  /\ ~ (turnCount (state a) <= maxTurns (state a)).
Proof.
  intros capped a.
  split; [ vm_compute; repeat split | ].
  split; [ vm_compute; reflexivity | ].
  split; [ vm_compute; reflexivity | ].
  split; [ vm_compute; reflexivity | ].
  intro H. vm_compute in H. apply H. reflexivity.
Qed.

(** X16. A successful turn stores a state whose [turnCount] is that of the
    state [runStep] was given plus one, whatever happened while its call was
    pending; and whatever events a session goes through from the first render
    (edits, START TUTORING, SUBMIT, calls settling, timers firing, reviews
    with a null verdict included), as long as they are handled in sequence, a
    click only while no call and no timer is pending, [turnCount] never
    exceeds [maxTurns]. *)
Theorem turn_count_steps_by_one_and_is_capped :
  forall JSON_parse : string -> option Review,
    (forall (t : Agent) (cur : SharedState) (reply : ServiceReply) (a : App),
       turnSucceeds JSON_parse t cur reply = true ->
       turnCount (state (turn JSON_parse t cur reply a)) = turnCount cur + 1
       /\ turnCount (state (runStep_settled JSON_parse t cur reply a)) = turnCount cur + 1)
    /\
    (forall events : list Event,
       turnCount (state (runSequenced JSON_parse events initialApp))
       <= maxTurns (state (runSequenced JSON_parse events initialApp))).
Proof.
  intro JSON_parse. split.
  - intros t cur reply a Hok. unfold turnSucceeds in Hok.
    destruct (callAgent t cur reply) as [out | ] eqn:Hcall; [ | discriminate ].
    destruct (applyOutput JSON_parse t cur out) as [upd | ] eqn:Happly; [ | discriminate ].
    rewrite (turn_success_state JSON_parse t cur upd reply out _ Hcall Happly).
    rewrite (settled_success_state JSON_parse t cur upd reply out _ Hcall Happly).
    split; apply (applyOutput_turnCount JSON_parse t cur upd out Happly).
  - intro events.
    destruct (invariant_runSequenced JSON_parse events initialApp invariant_initialApp)
      as [Hmax [Hcap _]].
    rewrite Hmax. exact Hcap.
Qed.

Lemma turn_count_steps_by_one_and_is_capped_witness :
  turnCount (state (turn sampleParse QUALITY_REVIEWER approvedLowConfidence
                      (Generated (Some "reject 0.9"))
                      (showing approvedLowConfidence false))) = 7
  /\ (let a := runSequenced sampleParse (toCap ++ superviseInTurn) initialApp in
      turnCount (state a) <= maxTurns (state a) /\ turnCount (state a) = 15)
  /\ (let a := runSequenced sampleParse overlapping initialApp in
      turnCount (state a) <= maxTurns (state a)).
Proof.
  split; [ | split ].
  - apply (proj1 (proj1 (turn_count_steps_by_one_and_is_capped sampleParse)
             QUALITY_REVIEWER approvedLowConfidence (Generated (Some "reject 0.9"))
             (showing approvedLowConfidence false) eq_refl)).
  - split.
    + apply (proj2 (turn_count_steps_by_one_and_is_capped sampleParse)
               (toCap ++ superviseInTurn)).
    + vm_compute. reflexivity.
  - apply (proj2 (turn_count_steps_by_one_and_is_capped sampleParse) overlapping).
Defined.

(** * Further properties *)

(** ** The selector, rule by rule *)

(** Each decision of the selector, with the states that get it. *)
Lemma selector_rows (s : SharedState) :
  (determineNextAgent s = CURRICULUM_PLANNER <->
     turnCount s < maxTurns s /\ truthy (lessonPlan s) = false)
  /\ (determineNextAgent s = CONCEPT_EXPLAINER <->
        turnCount s < maxTurns s /\ truthy (lessonPlan s) = true
        /\ truthy (explanation s) = false)
  /\ (determineNextAgent s = QUIZ_GENERATOR <->
        turnCount s < maxTurns s /\ truthy (lessonPlan s) = true
        /\ truthy (explanation s) = true /\ truthy (quiz s) = false)
  /\ (determineNextAgent s = FEEDBACK_ANALYZER <->
        turnCount s < maxTurns s /\ truthy (lessonPlan s) = true
        /\ truthy (explanation s) = true /\ truthy (quiz s) = true
        /\ truthy (studentAnswers s) = true /\ truthy (feedback s) = false)
  /\ (determineNextAgent s = MOTIVATOR <->
        turnCount s < maxTurns s /\ truthy (lessonPlan s) = true
        /\ truthy (explanation s) = true /\ truthy (quiz s) = true
        /\ truthy (studentAnswers s) = true /\ truthy (feedback s) = true
        /\ truthy (motivatorMessage s) = false)
  /\ (determineNextAgent s = QUALITY_REVIEWER <->
        turnCount s < maxTurns s /\ truthy (lessonPlan s) = true
        /\ truthy (explanation s) = true /\ truthy (quiz s) = true
        /\ truthy (studentAnswers s) = true /\ truthy (feedback s) = true
        /\ truthy (motivatorMessage s) = true /\ reviewerApproved s = None)
  /\ (determineNextAgent s = HUMAN_APPROVAL <->
        turnCount s < maxTurns s /\ truthy (lessonPlan s) = true
        /\ truthy (explanation s) = true /\ truthy (quiz s) = true
        /\ (truthy (studentAnswers s) = false
            \/ (truthy (feedback s) = true /\ truthy (motivatorMessage s) = true
                /\ reviewerApproved s = Some false)))
  /\ (determineNextAgent s = END <->
        turnCount s >= maxTurns s
        \/ (truthy (lessonPlan s) = true /\ truthy (explanation s) = true
            /\ truthy (quiz s) = true /\ truthy (studentAnswers s) = true
            /\ truthy (feedback s) = true /\ truthy (motivatorMessage s) = true
            /\ reviewerApproved s = Some true))
  /\ determineNextAgent s <> SUPERVISOR.
Proof.
  unfold determineNextAgent.
  destruct (Z_lt_ge_dec (turnCount s) (maxTurns s)) as [Hlt | Hge];
    [ rewrite (geb_false _ _ Hlt) | rewrite (geb_true _ _ Hge) ].
  2: { repeat split; intros; try discriminate; try lia; intuition (lia || congruence). }
  destruct (truthy (lessonPlan s));
    [ | simpl; repeat split; intros; try discriminate; intuition (lia || congruence) ].
  destruct (truthy (explanation s));
    [ | simpl; repeat split; intros; try discriminate; intuition (lia || congruence) ].
  destruct (truthy (quiz s));
    [ | simpl; repeat split; intros; try discriminate; intuition (lia || congruence) ].
  destruct (truthy (studentAnswers s));
    [ | simpl; repeat split; intros; try discriminate; intuition (lia || congruence) ].
  destruct (truthy (feedback s));
    [ | simpl; repeat split; intros; try discriminate; intuition (lia || congruence) ].
  destruct (truthy (motivatorMessage s));
    [ | simpl; repeat split; intros; try discriminate; intuition (lia || congruence) ].
  destruct (reviewerApproved s) as [[ | ] | ]; simpl;
    try destruct (js_ge (confidence s) 0.8%float);
    repeat split; intros; try discriminate; intuition (lia || congruence).
Qed.

(** X1. The selector's decisions, each with exactly the states that get it:
    the planner, the explainer and the quiz generator for the first artifact
    missing; the human while the quiz is unanswered or after a rejecting
    review; feedback, motivator and review in that order after the answers;
    [END] at the cap or once the review approved; [SUPERVISOR] never. *)
Theorem selector_decisions (s : SharedState) :
  (determineNextAgent s = CURRICULUM_PLANNER <->
     turnCount s < maxTurns s /\ truthy (lessonPlan s) = false)
  /\ (determineNextAgent s = CONCEPT_EXPLAINER <->
        turnCount s < maxTurns s /\ truthy (lessonPlan s) = true
        /\ truthy (explanation s) = false)
  /\ (determineNextAgent s = QUIZ_GENERATOR <->
        turnCount s < maxTurns s /\ truthy (lessonPlan s) = true
        /\ truthy (explanation s) = true /\ truthy (quiz s) = false)
  /\ (determineNextAgent s = FEEDBACK_ANALYZER <->
        turnCount s < maxTurns s /\ truthy (lessonPlan s) = true
        /\ truthy (explanation s) = true /\ truthy (quiz s) = true
        /\ truthy (studentAnswers s) = true /\ truthy (feedback s) = false)
  /\ (determineNextAgent s = MOTIVATOR <->
        turnCount s < maxTurns s /\ truthy (lessonPlan s) = true
        /\ truthy (explanation s) = true /\ truthy (quiz s) = true
        /\ truthy (studentAnswers s) = true /\ truthy (feedback s) = true
        /\ truthy (motivatorMessage s) = false)
  /\ (determineNextAgent s = QUALITY_REVIEWER <->
        turnCount s < maxTurns s /\ truthy (lessonPlan s) = true
        /\ truthy (explanation s) = true /\ truthy (quiz s) = true
        /\ truthy (studentAnswers s) = true /\ truthy (feedback s) = true
        /\ truthy (motivatorMessage s) = true /\ reviewerApproved s = None)
  /\ (determineNextAgent s = HUMAN_APPROVAL <->
        turnCount s < maxTurns s /\ truthy (lessonPlan s) = true
        /\ truthy (explanation s) = true /\ truthy (quiz s) = true
        /\ (truthy (studentAnswers s) = false
            \/ (truthy (feedback s) = true /\ truthy (motivatorMessage s) = true
                /\ reviewerApproved s = Some false)))
  /\ (determineNextAgent s = END <->
        turnCount s >= maxTurns s
        \/ (truthy (lessonPlan s) = true /\ truthy (explanation s) = true
            /\ truthy (quiz s) = true /\ truthy (studentAnswers s) = true
            /\ truthy (feedback s) = true /\ truthy (motivatorMessage s) = true
            /\ reviewerApproved s = Some true))
  /\ determineNextAgent s <> SUPERVISOR.
Proof. exact (selector_rows s). Qed.

(** X2. The decision depends on nothing but which artifacts are set, on
    [reviewerApproved] and on whether the cap is reached: not on the texts,
    not on [topic], [difficulty] or [reviewerComments], and not on
    [confidence], since an approving review ends the session above and below
    0.8 alike. *)
Theorem selector_reads_only_the_flags (s s' : SharedState) :
  truthy (lessonPlan s) = truthy (lessonPlan s') ->
  truthy (explanation s) = truthy (explanation s') ->
  truthy (quiz s) = truthy (quiz s') ->
  truthy (studentAnswers s) = truthy (studentAnswers s') ->
  truthy (feedback s) = truthy (feedback s') ->
  truthy (motivatorMessage s) = truthy (motivatorMessage s') ->
  reviewerApproved s = reviewerApproved s' ->
  (turnCount s >=? maxTurns s) = (turnCount s' >=? maxTurns s') ->
  determineNextAgent s = determineNextAgent s'.
Proof.
  intros Hlp Hex Hq Hsa Hfb Hmm Hap Hcap. unfold determineNextAgent.
  rewrite Hlp, Hex, Hq, Hsa, Hfb, Hmm, Hap, Hcap.
  destruct (reviewerApproved s') as [[ | ] | ]; simpl;
    repeat match goal with
           | |- context [if ?b then _ else _] => destruct b
           end; reflexivity.
Qed.

Lemma selector_reads_only_the_flags_witness :
  determineNextAgent approvedLowConfidence
  = determineNextAgent
      (set_confidence 0.92%float
         (set_reviewerComments None
            (set_topic "Mitosis" (set_lessonPlan (Some "another plan") approvedLowConfidence)))).
Proof.
  apply (selector_reads_only_the_flags approvedLowConfidence); reflexivity.
Defined.

(** ** Every session *)

Section EverySession.

Variable JSON_parse : string -> option Review.
Variable Q : SharedState -> Prop.

Hypothesis Q_fresh :
  forall t d : string, Q (set_difficulty d (set_topic t INITIAL_STATE)).
Hypothesis Q_initial : Q INITIAL_STATE.
Hypothesis Q_turn :
  forall (cur upd : SharedState) (out : string),
    Q cur -> nonempty out = true ->
    applyOutput JSON_parse (determineNextAgent cur) cur out = Some upd -> Q upd.
Hypothesis Q_answers :
  forall (s : SharedState) (text : string),
    Q s -> studentCondition s = true -> nonempty text = true ->
    Q (set_studentAnswers (Some text) s).

Lemma keptBy_runStep (cur : SharedState) (b : App) :
  keptBy Q b -> Q cur -> keptBy Q (runStep (determineNextAgent cur) cur b).
Proof.
  intros [Hst Hall] Hcur. split.
  - exact Hst.
  - change (pending (runStep (determineNextAgent cur) cur b))
      with (pending b ++ [Awaiting (determineNextAgent cur) cur]).
    apply Forall_app. split; [ exact Hall | ].
    constructor; [ split; [ reflexivity | exact Hcur ] | constructor ].
Qed.

Lemma keptBy_settled (cur : SharedState) (reply : ServiceReply) (a : App) :
  keptBy Q a -> Q cur ->
  keptBy Q (runStep_settled JSON_parse (determineNextAgent cur) cur reply a).
Proof.
  intros [Hst Hall] Hcur. unfold runStep_settled.
  destruct (callAgent (determineNextAgent cur) cur reply) as [out | ] eqn:Hcall;
    [ | split; assumption ].
  destruct (applyOutput JSON_parse (determineNextAgent cur) cur out) as [upd | ] eqn:Happly;
    [ | split; assumption ].
  assert (Hupd : Q upd).
  { apply (Q_turn cur upd out Hcur); [ | exact Happly ].
    apply (callAgent_nonempty _ cur reply out Hcall). }
  destruct (determineNextAgent upd) eqn:Hnext;
    try (split; [ exact Hupd | exact Hall ]);
    (split; [ exact Hupd | ]);
    (apply Forall_app; split; [ exact Hall | ]);
    (constructor; [ | constructor ]);
    (split; [ simpl; symmetry; exact Hnext | exact Hupd ]).
Qed.

Lemma keptBy_dispatch (e : Event) (a : App) :
  keptBy Q a -> keptBy Q (dispatch JSON_parse e a).
Proof.
  intro Hk. destruct e as [v | v | v | | | n reply | n]; unfold dispatch.
  - destruct (inputsDisabled a); exact Hk.
  - destruct (inputsDisabled a); exact Hk.
  - destruct (showHumanPrompt a); exact Hk.
  - destruct (startDisabled a); [ exact Hk | ].
    unfold startSession. destruct (negb (nonempty (topicInput a))); [ exact Hk | ].
    destruct Hk as [_ Hall].
    apply (keptBy_runStep
             (set_difficulty (difficultyInput a) (set_topic (topicInput a) INITIAL_STATE))).
    + split; [ apply Q_fresh | exact Hall ].
    + apply Q_fresh.
  - destruct (showHumanPrompt a); [ | exact Hk ].
    unfold handleHumanSubmit.
    destruct (nonempty (humanInput a)) eqn:Hin; [ simpl | exact Hk ].
    destruct Hk as [Hst Hall].
    assert (Hupd : Q (humanUpdate a)).
    { unfold humanUpdate. destruct (studentCondition (state a)) eqn:Hcond.
      - apply Q_answers; assumption.
      - exact Hst. }
    apply keptBy_runStep; [ | exact Hupd ].
    split; [ exact Hupd | ].
    unfold humanMerge. destruct (studentCondition (state a)); exact Hall.
  - destruct (nth_error (pending a) n) as [[t cur | next upd] | ] eqn:Hn; try exact Hk.
    destruct Hk as [Hst Hall].
    destruct (Forall_nth_error _ n (pending a) _ Hall Hn) as [Ht Hcur].
    simpl in Ht, Hcur. subst t.
    apply keptBy_settled; [ | exact Hcur ].
    split; [ exact Hst | apply Forall_removeAt; exact Hall ].
  - destruct (nth_error (pending a) n) as [[t cur | next upd] | ] eqn:Hn; try exact Hk.
    destruct Hk as [Hst Hall].
    destruct (Forall_nth_error _ n (pending a) _ Hall Hn) as [Ht Hupd].
    simpl in Ht, Hupd. subst next.
    apply keptBy_runStep; [ | exact Hupd ].
    split; [ exact Hst | apply Forall_removeAt; exact Hall ].
Qed.

Lemma keptBy_run (events : list Event) :
  keptBy Q (run JSON_parse events initialApp).
Proof.
  assert (Hgen : forall a, keptBy Q a -> keptBy Q (run JSON_parse events a)).
  { induction events as [ | e events' IH]; intros a Hk.
    - exact Hk.
    - simpl. apply IH. apply keptBy_dispatch. exact Hk. }
  apply Hgen. split; [ exact Q_initial | constructor ].
Qed.

End EverySession.

Lemma b2z_range (b : bool) : 0 <= b2z b <= 1.
Proof. destruct b; simpl; lia. Qed.

(** A turn the selector chose keeps the order of the pipeline. *)
Lemma ordered_turn (JSON_parse : string -> option Review) (cur upd : SharedState)
    (out : string) :
  ordered cur -> nonempty out = true ->
  applyOutput JSON_parse (determineNextAgent cur) cur out = Some upd -> ordered upd.
Proof.
  intros [Hmax [Hprod [H1 [H2 [H3 [H4 [H5 H6]]]]]]] Hout Happly.
  assert (Hset : truthy (Some out) = true) by exact Hout.
  destruct (selector_rows cur)
    as [Rp [Re [Rq [Rf [Rm [Rr [_ [_ _]]]]]]]].
  unfold produced in Hprod.
  destruct (determineNextAgent cur) eqn:Hsel; unfold applyOutput in Happly;
    try (injection Happly as <-).
  - (* supervisor *)
    unfold ordered, produced. project_state.
    repeat apply conj; try assumption. lia.
  - (* planner *)
    destruct (proj1 Rp eq_refl) as [_ Hlp].
    unfold ordered, produced. project_state. rewrite Hset. rewrite Hlp in Hprod.
    count_flags. repeat apply conj; try assumption; try lia;
      intros _; first [ reflexivity | assumption ].
  - (* explainer *)
    destruct (proj1 Re eq_refl) as [_ [Hlp Hex]].
    unfold ordered, produced. project_state. rewrite Hset. rewrite Hex in Hprod.
    count_flags. repeat apply conj; try assumption; try lia;
      intros _; first [ reflexivity | assumption ].
  - (* quiz generator *)
    destruct (proj1 Rq eq_refl) as [_ [Hlp [Hex Hq]]].
    unfold ordered, produced. project_state. rewrite Hset. rewrite Hq in Hprod.
    count_flags. repeat apply conj; try assumption; try lia;
      intros _; first [ reflexivity | assumption ].
  - (* feedback analyzer *)
    destruct (proj1 Rf eq_refl) as [_ [Hlp [Hex [Hq [Hsa Hfb]]]]].
    unfold ordered, produced. project_state. rewrite Hset. rewrite Hfb in Hprod.
    count_flags. repeat apply conj; try assumption; try lia;
      intros _; first [ reflexivity | assumption ].
  - (* motivator *)
    destruct (proj1 Rm eq_refl) as [_ [Hlp [Hex [Hq [Hsa [Hfb Hmm]]]]]].
    unfold ordered, produced. project_state. rewrite Hset. rewrite Hmm in Hprod.
    count_flags. repeat apply conj; try assumption; try lia;
      intros _; first [ reflexivity | assumption ].
  - (* quality reviewer *)
    destruct (proj1 Rr eq_refl) as [_ [Hlp [Hex [Hq [Hsa [Hfb [Hmm Hap]]]]]]].
    destruct (JSON_parse out) as [review | ]; [ injection Happly as <- | discriminate ].
    unfold ordered, produced. project_state. rewrite Hap in Hprod.
    change (b2z (negb (is_null None))) with 0 in Hprod.
    pose proof (b2z_range (negb (is_null (review_approved review)))) as Hrange.
    repeat apply conj; try assumption; try lia;
      intros _; first [ reflexivity | assumption ].
  - (* the human *)
    unfold ordered, produced. project_state.
    repeat apply conj; try assumption. lia.
  - (* the end *)
    unfold ordered, produced. project_state.
    repeat apply conj; try assumption. lia.
Qed.

Lemma ordered_answers (s : SharedState) (text : string) :
  ordered s -> studentCondition s = true -> nonempty text = true ->
  ordered (set_studentAnswers (Some text) s).
Proof.
  intros [Hmax [Hprod [H1 [H2 [H3 [H4 [H5 H6]]]]]]] Hcond Hin.
  unfold studentCondition in Hcond. apply andb_prop in Hcond. destruct Hcond as [Hq Hsa].
  apply negb_true_iff in Hsa.
  unfold ordered, produced in *. project_state.
  repeat apply conj; try assumption.
  - intros _. exact Hq.
  - intro Hfb. rewrite (H4 Hfb) in Hsa. discriminate Hsa.
Qed.

Lemma ordered_fresh (t d : string) : ordered (set_difficulty d (set_topic t INITIAL_STATE)).
Proof.
  unfold ordered, produced. project_state. unfold INITIAL_STATE. project_state.
  change (truthy None) with false. change (is_null None) with true.
  change (negb true) with false. count_flags.
  repeat apply conj; try reflexivity; try lia; intro H; discriminate H.
Qed.

Lemma ordered_initial : ordered INITIAL_STATE.
Proof.
  unfold ordered, produced. project_state. unfold INITIAL_STATE. project_state.
  change (truthy None) with false. change (is_null None) with true.
  change (negb true) with false. count_flags.
  repeat apply conj; try reflexivity; try lia; intro H; discriminate H.
Qed.

(** X3. In every session, whatever the order of clicks, replies and timers,
    the stored state has [maxTurns] 15, holds no more produced artifacts than
    [turnCount] counts turns, and holds them in the order of the pipeline: no
    explanation without a plan, no quiz without an explanation, no answers
    without a quiz, no feedback without answers, no motivator message without
    feedback, no verdict without a motivator message.  The same holds of the
    state of every pending task, and every pending task runs the agent the
    selector chose on its state. *)
Theorem every_session_keeps_the_pipeline_order
    (JSON_parse : string -> option Review) (events : list Event) :
  let a := run JSON_parse events initialApp in
  ordered (state a)
  /\ forall task : Task, In task (pending a) ->
       taskAgent task = determineNextAgent (taskState task)
       /\ ordered (taskState task).
Proof.
  intro a.
  destruct (keptBy_run JSON_parse ordered ordered_fresh ordered_initial
              (ordered_turn JSON_parse) ordered_answers events) as [Hst Hall].
  fold a in Hst, Hall. split; [ exact Hst | ].
  intros task Hin. apply (proj1 (Forall_forall _ _) Hall task Hin).
Qed.

(** ** Sequenced sessions *)

Lemma extends_refl (s : SharedState) : extends s s.
Proof.
  unfold extends. repeat apply conj; try reflexivity; try lia;
    intros _; repeat apply conj; reflexivity.
Qed.

(** A turn the selector chose writes where nothing was written. *)
Lemma extends_turn (JSON_parse : string -> option Review) (cur upd : SharedState)
    (out : string) :
  applyOutput JSON_parse (determineNextAgent cur) cur out = Some upd -> extends cur upd.
Proof.
  intro Happly.
  destruct (selector_rows cur) as [Rp [Re [Rq [Rf [Rm [Rr [_ [_ _]]]]]]]].
  destruct (determineNextAgent cur) eqn:Hsel; unfold applyOutput in Happly;
    try (injection Happly as <-).
  - unfold extends. project_state.
    repeat apply conj; try reflexivity; try lia;
      intros _; repeat apply conj; reflexivity.
  - destruct (proj1 Rp eq_refl) as [_ Hlp].
    unfold extends. project_state.
    repeat apply conj; try reflexivity; try lia; intro H;
      first [ repeat apply conj; reflexivity | rewrite Hlp in H; discriminate H ].
  - destruct (proj1 Re eq_refl) as [_ [_ Hex]].
    unfold extends. project_state.
    repeat apply conj; try reflexivity; try lia; intro H;
      first [ repeat apply conj; reflexivity | rewrite Hex in H; discriminate H ].
  - destruct (proj1 Rq eq_refl) as [_ [_ [_ Hq]]].
    unfold extends. project_state.
    repeat apply conj; try reflexivity; try lia; intro H;
      first [ repeat apply conj; reflexivity | rewrite Hq in H; discriminate H ].
  - destruct (proj1 Rf eq_refl) as [_ [_ [_ [_ [_ Hfb]]]]].
    unfold extends. project_state.
    repeat apply conj; try reflexivity; try lia; intro H;
      first [ repeat apply conj; reflexivity | rewrite Hfb in H; discriminate H ].
  - destruct (proj1 Rm eq_refl) as [_ [_ [_ [_ [_ [_ Hmm]]]]]].
    unfold extends. project_state.
    repeat apply conj; try reflexivity; try lia; intro H;
      first [ repeat apply conj; reflexivity | rewrite Hmm in H; discriminate H ].
  - destruct (proj1 Rr eq_refl) as [_ [_ [_ [_ [_ [_ [_ Hap]]]]]]].
    destruct (JSON_parse out) as [review | ]; [ injection Happly as <- | discriminate ].
    unfold extends. project_state.
    repeat apply conj; try reflexivity; try lia; intro H;
      first [ repeat apply conj; reflexivity | rewrite Hap in H; discriminate H ].
  - unfold extends. project_state.
    repeat apply conj; try reflexivity; try lia;
      intros _; repeat apply conj; reflexivity.
  - unfold extends. project_state.
    repeat apply conj; try reflexivity; try lia;
      intros _; repeat apply conj; reflexivity.
Qed.

(** The state [runStep_settled] leaves: the stored one, or the one computed. *)
Lemma settled_state_cases (JSON_parse : string -> option Review) (t : Agent)
    (cur : SharedState) (reply : ServiceReply) (a : App) :
  state (runStep_settled JSON_parse t cur reply a) = state a
  \/ exists out upd,
       callAgent t cur reply = Some out
       /\ applyOutput JSON_parse t cur out = Some upd
       /\ state (runStep_settled JSON_parse t cur reply a) = upd.
Proof.
  unfold runStep_settled.
  destruct (callAgent t cur reply) as [out | ]; [ | left; reflexivity ].
  destruct (applyOutput JSON_parse t cur out) as [upd | ] eqn:Happly; [ | left; reflexivity ].
  right. exists out, upd. split; [ reflexivity | split; [ exact Happly | ] ].
  destruct (determineNextAgent upd); reflexivity.
Qed.

(** X4. In a sequenced session no event other than START takes anything back:
    [topic], [difficulty] and [maxTurns] stay, [turnCount] stays or grows by
    one, an artifact that is set keeps its text, the student's answers once
    given stay, and a verdict once given stays with its comments and its
    confidence. *)
Theorem sequenced_session_only_adds
    (JSON_parse : string -> option Review) (events : list Event) (e : Event) :
  e <> ClickStart ->
  let a := runSequenced JSON_parse events initialApp in
  extends (state a) (state (dispatchSequenced JSON_parse e a)).
Proof.
  intros He a.
  assert (Hinv : invariant a)
    by (apply invariant_runSequenced; apply invariant_initialApp).
  unfold invariant in Hinv.
  destruct e as [v | v | v | | | n reply | n]; unfold dispatchSequenced, dispatch, idle.
  - destruct (inputsDisabled a); apply extends_refl.
  - destruct (inputsDisabled a); apply extends_refl.
  - destruct (showHumanPrompt a); apply extends_refl.
  - exfalso. apply He. reflexivity.
  - destruct (pending a); [ | apply extends_refl ].
    destruct (showHumanPrompt a); [ | apply extends_refl ].
    unfold handleHumanSubmit.
    destruct (nonempty (humanInput a)); [ | apply extends_refl ].
    cbv zeta. unfold humanMerge, humanUpdate.
    destruct (studentCondition (state a)) eqn:Hcond; [ | apply extends_refl ].
    unfold studentCondition in Hcond. apply andb_prop in Hcond.
    destruct Hcond as [_ Hsa]. apply negb_true_iff in Hsa.
    change (extends (state a) (set_studentAnswers (Some (humanInput a)) (state a))).
    unfold extends. project_state.
    repeat apply conj; try reflexivity; try lia; intro H;
      first [ repeat apply conj; reflexivity | rewrite Hsa in H; discriminate H ].
  - destruct (pending a) as [ | task [ | task' rest]] eqn:Hp.
    + destruct n; apply extends_refl.
    + destruct n as [ | n]; [ | destruct n; apply extends_refl ].
      destruct task as [t cur | next upd]; [ | apply extends_refl ].
      destruct Hinv as [_ [_ [Hst [Ht _]]]]. simpl in Hst, Ht. subst cur t.
      cbn [nth_error].
      destruct (settled_state_cases JSON_parse (determineNextAgent (state a)) (state a)
                  reply (setPending (removeAt 0 [Awaiting (determineNextAgent (state a)) (state a)]) a))
        as [Hsame | [out [upd [_ [Happly Hupd]]]]].
      * rewrite Hsame. apply extends_refl.
      * rewrite Hupd. apply (extends_turn JSON_parse _ _ out Happly).
    + destruct Hinv as [_ [_ []]].
  - destruct (nth_error (pending a) n) as [[t cur | next upd] | ]; apply extends_refl.
Qed.

Lemma sequenced_session_only_adds_witness :
  extends
    (state (runSequenced sampleParse (toRejection ++ [InputHuman "redo the quiz"]) initialApp))
    (state (dispatchSequenced sampleParse ClickSubmit
              (runSequenced sampleParse (toRejection ++ [InputHuman "redo the quiz"])
                 initialApp))).
Proof.
  apply (sequenced_session_only_adds sampleParse
           (toRejection ++ [InputHuman "redo the quiz"]) ClickSubmit).
  discriminate.
Defined.

(** Every event, handled in sequence, keeps the flags in step with what is
    pending. *)
Lemma flagsAgree_dispatchSequenced (JSON_parse : string -> option Review)
    (e : Event) (a : App) :
  flagsAgree a -> flagsAgree (dispatchSequenced JSON_parse e a).
Proof.
  intro Hf. unfold flagsAgree in Hf.
  destruct e as [v | v | v | | | n reply | n]; unfold dispatchSequenced, dispatch, idle.
  - destruct (inputsDisabled a); exact Hf.
  - destruct (inputsDisabled a); exact Hf.
  - destruct (showHumanPrompt a); exact Hf.
  - destruct (pending a) eqn:Hp; [ | unfold flagsAgree; rewrite Hp; exact Hf ].
    destruct (startDisabled a); [ unfold flagsAgree; rewrite Hp; exact Hf | ].
    unfold startSession.
    destruct (negb (nonempty (topicInput a))); [ unfold flagsAgree; rewrite Hp; exact Hf | ].
    unfold flagsAgree, runStep, defer. cbn [pending isProcessing currentStep setPending addLog
      setLogs setCurrentStep setIsProcessing setState]. rewrite Hp. split; reflexivity.
  - destruct (pending a) eqn:Hp; [ | unfold flagsAgree; rewrite Hp; exact Hf ].
    destruct (showHumanPrompt a); [ | unfold flagsAgree; rewrite Hp; exact Hf ].
    unfold handleHumanSubmit.
    destruct (nonempty (humanInput a)); cbn [negb];
      [ | unfold flagsAgree; rewrite Hp; exact Hf ].
    cbv zeta. unfold humanMerge.
    destruct (studentCondition (state a));
      unfold flagsAgree, runStep, defer;
      cbn [pending isProcessing currentStep setPending addLog setLogs setCurrentStep
           setIsProcessing setState setHumanInput setShowHumanPrompt];
      rewrite Hp; split; reflexivity.
  - destruct (pending a) as [ | task [ | task' rest]] eqn:Hp.
    + destruct n; cbn [nth_error]; unfold flagsAgree; rewrite Hp; exact Hf.
    + destruct n as [ | n];
        [ | destruct n; cbn [nth_error]; unfold flagsAgree; rewrite Hp; exact Hf ].
      cbn [nth_error].
      destruct task as [t cur | next upd];
        [ | unfold flagsAgree; rewrite Hp; exact Hf ].
      unfold runStep_settled.
      destruct (callAgent t cur reply) as [out | ]; [ | split; reflexivity ].
      destruct (applyOutput JSON_parse t cur out) as [upd | ]; [ | split; reflexivity ].
      cbv zeta. destruct (determineNextAgent upd); split; reflexivity.
    + destruct task; destruct Hf.
  - destruct (pending a) as [ | task [ | task' rest]] eqn:Hp.
    + destruct n; cbn [nth_error]; unfold flagsAgree; rewrite Hp; exact Hf.
    + destruct n as [ | n];
        [ | destruct n; cbn [nth_error]; unfold flagsAgree; rewrite Hp; exact Hf ].
      cbn [nth_error].
      destruct task as [t cur | next upd];
        [ unfold flagsAgree; rewrite Hp; exact Hf | ].
      split; reflexivity.
    + destruct task; destruct Hf.
Qed.

Lemma flagsAgree_runSequenced (JSON_parse : string -> option Review)
    (events : list Event) :
  flagsAgree (runSequenced JSON_parse events initialApp).
Proof.
  assert (Hgen : forall a, flagsAgree a -> flagsAgree (runSequenced JSON_parse events a)).
  { induction events as [ | e events' IH]; intros a Hf.
    - exact Hf.
    - simpl. apply IH. apply flagsAgree_dispatchSequenced. exact Hf. }
  apply Hgen. split; reflexivity.
Qed.

(** X5. In a sequenced session the two progress flags tell what is in flight:
    at most one task is pending; [isProcessing] is set exactly while a call
    is awaited, and [currentStep] then names the awaited agent and is null
    otherwise, also while the timer of the next turn is pending. *)
Theorem sequenced_session_flags
    (JSON_parse : string -> option Review) (events : list Event) :
  let a := runSequenced JSON_parse events initialApp in
  (length (pending a) <= 1)%nat
  /\ (isProcessing a = true <-> exists t cur, pending a = [Awaiting t cur])
  /\ (forall t, currentStep a = Some t <-> exists cur, pending a = [Awaiting t cur])
  /\ (startDisabled a = false ->
      pending a = [] \/ exists next upd, pending a = [Scheduled next upd]).
Proof.
  intro a. assert (Hf := flagsAgree_runSequenced JSON_parse events). fold a in Hf.
  unfold flagsAgree in Hf. unfold startDisabled.
  destruct (pending a) as [ | [t cur | next upd] [ | task' rest]]; try destruct Hf as [Hp Hc];
    try contradiction.
  - split; [ simpl; lia | ]. rewrite Hp, Hc. repeat split.
    + discriminate.
    + intros [t [cur H]]. discriminate H.
    + discriminate.
    + intros [cur H]. discriminate H.
    + intros _. left. reflexivity.
  - split; [ simpl; lia | ]. rewrite Hp, Hc. repeat split.
    + intros _. exists t, cur. reflexivity.
    + intro H. injection H as <-. exists cur. reflexivity.
    + intros [cur' H]. injection H as <- _. reflexivity.
    + discriminate.
  - split; [ simpl; lia | ]. rewrite Hp, Hc. repeat split.
    + discriminate.
    + intros [t [cur H]]. discriminate H.
    + discriminate.
    + intros [cur H]. discriminate H.
    + intros _. right. exists next, upd. reflexivity.
Qed.

(** ** Turns, continued *)


(** X6. An agent that has just produced its artifact is not the selector's
    next answer: a resolved call never yields the empty text, so the field
    the planner, the explainer, the quiz generator, the feedback analyzer or
    the motivator wrote counts as set; and the Quality-Reviewer is not asked
    again once it has given a verdict that is not null.  A null verdict is
    stored as it is: below the cap the selector then chooses the
    Quality-Reviewer again. *)
Theorem producer_is_not_asked_twice :
  forall (JSON_parse : string -> option Review) (t : Agent) (cur : SharedState)
         (reply : ServiceReply) (a : App),
    t <> SUPERVISOR -> t <> HUMAN_APPROVAL -> t <> END ->
    turnSucceeds JSON_parse t cur reply = true ->
    let s' := state (turn JSON_parse t cur reply a) in
    (t <> QUALITY_REVIEWER \/ reviewerApproved s' <> None ->
     determineNextAgent s' <> t)
    /\ (t = QUALITY_REVIEWER ->
        reviewerApproved s' = None ->
        determineNextAgent cur = QUALITY_REVIEWER ->
        turnCount s' < maxTurns s' ->
        determineNextAgent s' = QUALITY_REVIEWER).
Proof.
  intros JSON_parse t cur reply a Hs Hh He Hok s'. unfold s'. clear s'.
  unfold turnSucceeds in Hok.
  destruct (callAgent t cur reply) as [out | ] eqn:Hcall; [ | discriminate ].
  destruct (applyOutput JSON_parse t cur out) as [upd | ] eqn:Happly; [ | discriminate ].
  rewrite (turn_success_state JSON_parse t cur upd reply out a Hcall Happly).
  assert (Hout : truthy (Some out) = true) by exact (callAgent_nonempty t cur reply out Hcall).
  destruct (selector_rows upd) as [Rp [Re [Rq [Rf [Rm [Rr _]]]]]].
  split.
  - intros Hgiven Hsel.
    destruct t; unfold applyOutput in Happly;
      try (exfalso; apply Hs; reflexivity);
      try (exfalso; apply Hh; reflexivity);
      try (exfalso; apply He; reflexivity);
      try (injection Happly as <-).
    + destruct (proj1 Rp Hsel) as [_ H]. project_state. rewrite Hout in H. discriminate H.
    + destruct (proj1 Re Hsel) as [_ [_ H]]. project_state. rewrite Hout in H.
      discriminate H.
    + destruct (proj1 Rq Hsel) as [_ [_ [_ H]]]. project_state. rewrite Hout in H.
      discriminate H.
    + destruct (proj1 Rf Hsel) as [_ [_ [_ [_ [_ H]]]]]. project_state. rewrite Hout in H.
      discriminate H.
    + destruct (proj1 Rm Hsel) as [_ [_ [_ [_ [_ [_ H]]]]]]. project_state.
      rewrite Hout in H. discriminate H.
    + destruct (proj1 Rr Hsel) as [_ [_ [_ [_ [_ [_ [_ H]]]]]]].
      destruct Hgiven as [Hne | Hne]; [ apply Hne; reflexivity | apply Hne; exact H ].
  - intros Ht Hnull Hsel Hlt. subst t. unfold applyOutput in Happly.
    destruct (JSON_parse out) as [review | ]; [ injection Happly as Hupd | discriminate ].
    destruct (proj1 (proj1 (proj2 (proj2 (proj2 (proj2 (proj2 (selector_rows cur)))))))
                Hsel) as [_ [Hlp [Hex [Hq [Hsa [Hfb [Hmm _]]]]]]].
    apply (proj2 Rr). rewrite <- Hupd in Hlt |- *. project_state.
    rewrite <- Hupd in Hnull. project_state.
    repeat apply conj; assumption.
Qed.

Lemma producer_is_not_asked_twice_witness :
  determineNextAgent
    (state (turn sampleParse CONCEPT_EXPLAINER planned (Generated None) (showing planned false)))
  <> CONCEPT_EXPLAINER
  /\ determineNextAgent
       (state (turn sampleParse QUALITY_REVIEWER motivated (Generated (Some "reject 0.9"))
                 (showing motivated false)))
     <> QUALITY_REVIEWER
  /\ determineNextAgent
       (state (turn sampleParse QUALITY_REVIEWER motivated (Generated (Some "undecided 0.7"))
                 (showing motivated false)))
     = QUALITY_REVIEWER.
Proof.
  split; [ | split ].
  - apply (proj1 (producer_is_not_asked_twice sampleParse CONCEPT_EXPLAINER planned
                    (Generated None) (showing planned false)
                    ltac:(discriminate) ltac:(discriminate) ltac:(discriminate) eq_refl)).
    left. discriminate.
  - apply (proj1 (producer_is_not_asked_twice sampleParse QUALITY_REVIEWER motivated
                    (Generated (Some "reject 0.9")) (showing motivated false)
                    ltac:(discriminate) ltac:(discriminate) ltac:(discriminate) eq_refl)).
    right. discriminate.
  - apply (proj2 (producer_is_not_asked_twice sampleParse QUALITY_REVIEWER motivated
                    (Generated (Some "undecided 0.7")) (showing motivated false)
                    ltac:(discriminate) ltac:(discriminate) ltac:(discriminate) eq_refl));
      reflexivity.
Defined.

(** X7. When the service answers without a text, or with the empty text,
    [callAgent] resolves with the words "No response generated.": a turn of
    the planner, the explainer, the quiz generator, the feedback analyzer or
    the motivator stores these words as the artifact, which counts as set;
    a turn of the Quality-Reviewer fails on them, as they are not a
    judgment. *)
Theorem empty_reply_becomes_the_artifact :
  forall (JSON_parse : string -> option Review) (text : option string)
         (cur : SharedState) (a : App),
    truthy text = false ->
    JSON_parse "No response generated." = None ->
    let bumped := set_turnCount (turnCount cur + 1) cur in
    let words := Some "No response generated." in
    state (turn JSON_parse CURRICULUM_PLANNER cur (Generated text) a)
    = set_lessonPlan words bumped
    /\ state (turn JSON_parse CONCEPT_EXPLAINER cur (Generated text) a)
       = set_explanation words bumped
    /\ state (turn JSON_parse QUIZ_GENERATOR cur (Generated text) a)
       = set_quiz words bumped
    /\ state (turn JSON_parse FEEDBACK_ANALYZER cur (Generated text) a)
       = set_feedback words bumped
    /\ state (turn JSON_parse MOTIVATOR cur (Generated text) a)
       = set_motivatorMessage words bumped
    /\ truthy words = true
    /\ state (turn JSON_parse QUALITY_REVIEWER cur (Generated text) a) = state a
    /\ logs (turn JSON_parse QUALITY_REVIEWER cur (Generated text) a)
       = logs a ++ [startEntry QUALITY_REVIEWER; errorEntry QUALITY_REVIEWER].
Proof.
  intros JSON_parse text cur a Htext Hparse bumped words.
  assert (Hcall : forall t, callAgent t cur (Generated text) = Some "No response generated.").
  { intro t. unfold callAgent, js_or. destruct text as [str | ]; [ | reflexivity ].
    simpl in Htext. rewrite Htext. reflexivity. }
  assert (Hfail : turnSucceeds JSON_parse QUALITY_REVIEWER cur (Generated text) = false).
  { unfold turnSucceeds. rewrite Hcall. unfold applyOutput. rewrite Hparse. reflexivity. }
  destruct (turn_failure JSON_parse QUALITY_REVIEWER cur (Generated text) a Hfail)
    as [Hlogs [Hstate _]].
  repeat apply conj;
    try (apply (turn_success_state JSON_parse _ cur _ (Generated text)
                  "No response generated." a (Hcall _)); reflexivity).
  - reflexivity.
  - exact Hstate.
  - exact Hlogs.
Qed.

Lemma empty_reply_becomes_the_artifact_witness :
  lessonPlan (state (turn sampleParse CURRICULUM_PLANNER INITIAL_STATE (Generated (Some ""))
                       initialApp))
  = Some "No response generated."
  /\ state (turn sampleParse QUALITY_REVIEWER approvedLowConfidence (Generated None)
              (showing approvedLowConfidence false))
     = approvedLowConfidence.
Proof.
  destruct (empty_reply_becomes_the_artifact sampleParse (Some "") INITIAL_STATE initialApp
              eq_refl eq_refl) as [Hplan _].
  destruct (empty_reply_becomes_the_artifact sampleParse None approvedLowConfidence
              (showing approvedLowConfidence false) eq_refl eq_refl)
    as [_ [_ [_ [_ [_ [_ [Hstate _]]]]]]].
  split; [ rewrite Hplan; reflexivity | exact Hstate ].
Defined.

(** X8. A turn that fails while the human prompt is not shown and nothing
    else is pending strands the session: no text can be entered, SUBMIT does
    nothing, no call and no timer is left to resume.  Only START, which opens
    a new session, is left. *)
Theorem failed_turn_strands_the_session :
  forall (JSON_parse : string -> option Review) (t : Agent) (cur : SharedState)
         (reply : ServiceReply) (a : App) (e : Event),
    pending a = [] ->
    showHumanPrompt a = false ->
    turnSucceeds JSON_parse t cur reply = false ->
    (forall v, e <> InputTopic v) ->
    (forall v, e <> InputDifficulty v) ->
    e <> ClickStart ->
    dispatch JSON_parse e (turn JSON_parse t cur reply a) = turn JSON_parse t cur reply a.
Proof.
  intros JSON_parse t cur reply a e Hp Hshown Hfail Htopic Hdiff Hstart.
  destruct (turn_failure JSON_parse t cur reply a Hfail) as [_ [_ [Hp' Hshown']]].
  rewrite Hp in Hp'. rewrite Hshown in Hshown'.
  destruct e as [v | v | v | | | n reply' | n]; unfold dispatch.
  - exfalso. apply (Htopic v). reflexivity.
  - exfalso. apply (Hdiff v). reflexivity.
  - rewrite Hshown'. reflexivity.
  - exfalso. apply Hstart. reflexivity.
  - rewrite Hshown'. reflexivity.
  - rewrite Hp'. destruct n; reflexivity.
  - rewrite Hp'. destruct n; reflexivity.
Qed.

Lemma failed_turn_strands_the_session_witness :
  let a := turn sampleParse CONCEPT_EXPLAINER planned ServiceError (showing planned false) in
  dispatch sampleParse ClickSubmit a = a
  /\ dispatch sampleParse (InputHuman "try again") a = a
  /\ dispatch sampleParse (TimerFires 0) a = a.
Proof.
  intro a. repeat apply conj;
    apply (failed_turn_strands_the_session sampleParse CONCEPT_EXPLAINER planned
             ServiceError (showing planned false));
    try reflexivity; try discriminate; intro v; discriminate.
Defined.

(** ** How turns compose *)

Section Steps.

Variable JSON_parse : string -> option Review.

(** A pending call, alone in flight, resolves. *)
Lemma settle_resolved (a : App) (t : Agent) (cur upd : SharedState) (text : option string) :
  pending a = [Awaiting t cur] ->
  applyOutput JSON_parse t cur (js_or text "No response generated.") = Some upd ->
  let a' := dispatch JSON_parse (InvokerSettles 0 (Generated text)) a in
  state a' = upd
  /\ pending a' = scheduledAfter upd
  /\ showHumanPrompt a' = (showHumanPrompt a || suspendsAfter upd)
  /\ isProcessing a' = false
  /\ currentStep a' = None
  /\ humanInput a' = humanInput a
  /\ logs a' = logs a ++ outputEntry t (js_or text "No response generated.")
                 :: entriesAfter upd.
Proof.
  intros Hp Happly a'. unfold a', dispatch. rewrite Hp. cbn [nth_error].
  unfold runStep_settled, callAgent. rewrite Happly. cbv zeta.
  unfold scheduledAfter, suspendsAfter, entriesAfter.
  destruct (determineNextAgent upd); cbn;
    repeat apply conj; try reflexivity;
    try (symmetry; apply orb_false_r); try (symmetry; apply orb_true_r);
    try (rewrite <- app_assoc; reflexivity).
Qed.



(** A text typed and submitted while the prompt is shown and nothing is
    pending. *)
Lemma text_submitted (a : App) (text : string) :
  pending a = [] ->
  showHumanPrompt a = true ->
  nonempty text = true ->
  let upd := if studentCondition (state a)
             then set_studentAnswers (Some text) (state a) else state a in
  let a' := dispatch JSON_parse ClickSubmit (dispatch JSON_parse (InputHuman text) a) in
  state a' = upd
  /\ pending a' = [Awaiting (determineNextAgent upd) upd]
  /\ showHumanPrompt a' = false
  /\ humanInput a' = "".
Proof.
  intros Hp Hshown Hin upd a'.
  assert (H1 : dispatch JSON_parse (InputHuman text) a = setHumanInput text a)
    by (unfold dispatch; rewrite Hshown; reflexivity).
  assert (H2 : dispatch JSON_parse ClickSubmit (setHumanInput text a)
               = submitHumanInput text a).
  { unfold dispatch.
    change (showHumanPrompt (setHumanInput text a)) with (showHumanPrompt a).
    unfold submitHumanInput. rewrite Hshown. reflexivity. }
  unfold a'. rewrite H1, H2, (submit_nonempty text a Hshown Hin). fold upd.
  unfold runStep, defer.
  cbn [state pending showHumanPrompt humanInput logs setPending addLog setLogs
       setCurrentStep setIsProcessing setState setHumanInput setShowHumanPrompt].
  rewrite Hp. repeat apply conj; reflexivity.
Qed.

End Steps.

Section Chains.

Variable JSON_parse : string -> option Review.





End Chains.




(** ** Supervision after a rejecting review *)

Lemma set_turnCount_twice (s : SharedState) (n m : Z) :
  set_turnCount m (set_turnCount n s) = set_turnCount m s.
Proof. reflexivity. Qed.

Lemma set_turnCount_same (s : SharedState) :
  set_turnCount (turnCount s + 0) s = s.
Proof.
  destruct s as [tp df lp ex qz sa fb mm ra rc cf tc mt].
  unfold set_turnCount. project_state. rewrite Z.add_0_r. reflexivity.
Qed.

(** A state the supervisor is asked about holds a rejecting review. *)
Lemma supervisor_asked (s : SharedState) :
  determineNextAgent s = HUMAN_APPROVAL ->
  studentCondition s = false ->
  turnCount s < maxTurns s
  /\ truthy (lessonPlan s) = true /\ truthy (explanation s) = true
  /\ truthy (quiz s) = true /\ truthy (studentAnswers s) = true
  /\ truthy (feedback s) = true /\ truthy (motivatorMessage s) = true
  /\ reviewerApproved s = Some false.
Proof.
  intros Hsel Hcond.
  apply (proj1 (proj1 (proj2 (proj2 (proj2 (proj2 (proj2 (proj2 (selector_rows s)))))))))
    in Hsel.
  destruct Hsel as [Hlt [Hplan [Hexpl [Hquiz Hcase]]]].
  unfold studentCondition in Hcond. rewrite Hquiz in Hcond.
  destruct (truthy (studentAnswers s)) eqn:Hans; [ | discriminate Hcond ].
  destruct Hcase as [Hno | [Hfb [Hmot Hrev]]]; [ discriminate Hno | ].
  repeat apply conj; assumption || reflexivity.
Qed.

(** The selector one turn on, nothing else changed. *)
Lemma supervisor_asked_again (s : SharedState) :
  determineNextAgent s = HUMAN_APPROVAL ->
  studentCondition s = false ->
  determineNextAgent (set_turnCount (turnCount s + 1) s)
  = (if (turnCount s + 1 <? maxTurns s)%Z then HUMAN_APPROVAL else END)
  /\ studentCondition (set_turnCount (turnCount s + 1) s) = false.
Proof.
  intros Hsel Hcond.
  destruct (supervisor_asked s Hsel Hcond)
    as [Hlt [Hplan [Hexpl [Hquiz [Hans [Hfb [Hmot Hrev]]]]]]].
  split; [ | exact Hcond ].
  destruct (Z.ltb_spec (turnCount s + 1) (maxTurns s)) as [Hin | Hout].
  - apply (proj2 (proj1 (proj2 (proj2 (proj2 (proj2 (proj2 (proj2
             (selector_rows (set_turnCount (turnCount s + 1) s)))))))))).
    project_state.
    repeat apply conj; [ exact Hin | assumption | assumption | assumption | ].
    right. repeat apply conj; assumption.
  - apply (proj2 (proj1 (proj2 (proj2 (proj2 (proj2 (proj2 (proj2 (proj2
             (selector_rows (set_turnCount (turnCount s + 1) s))))))))))).
    left. project_state. lia.
Qed.

Section Supervision.

Variable JSON_parse : string -> option Review.

(** One round: the text is logged, the call is made for [HUMAN_APPROVAL],
    and its output only counts a turn. *)
Lemma supervision_round (a : App) (text : string) (r : option string) :
  awaitsSupervisor a ->
  nonempty text = true ->
  let a' := run JSON_parse (supervisionEvents text (Generated r)) a in
  state a' = set_turnCount (turnCount (state a) + 1) (state a)
  /\ pending a' = []
  /\ isProcessing a' = false
  /\ showHumanPrompt a' = (turnCount (state a) + 1 <? maxTurns (state a))%Z
  /\ determineNextAgent (state a')
     = (if (turnCount (state a) + 1 <? maxTurns (state a))%Z then HUMAN_APPROVAL else END)
  /\ studentCondition (state a') = false.
Proof.
  intros [Hp [Hshown [Hsel Hcond]]] Hin a'.
  destruct (supervisor_asked_again (state a) Hsel Hcond) as [Hnext Hcond'].
  unfold a', run, supervisionEvents. cbn [fold_left].
  destruct (text_submitted JSON_parse a text Hp Hshown Hin) as [_ [Hp1 [Hsh1 _]]].
  rewrite Hcond, Hsel in Hp1.
  destruct (settle_resolved JSON_parse _ HUMAN_APPROVAL (state a)
              (set_turnCount (turnCount (state a) + 1) (state a)) r Hp1 eq_refl)
    as [Hs2 [Hp2 [Hsh2 [Hpr2 _]]]].
  unfold scheduledAfter, suspendsAfter in Hp2, Hsh2.
  rewrite Hnext in Hp2, Hsh2. rewrite Hsh1 in Hsh2.
  rewrite Hs2.
  destruct (turnCount (state a) + 1 <? maxTurns (state a))%Z;
    cbn iota beta in Hp2, Hsh2; cbn [orb] in Hsh2;
    repeat apply conj; assumption || reflexivity.
Qed.

Lemma supervision_rounds (rounds : list (string * option string)) :
  forall a : App,
    awaitsSupervisor a ->
    Forall (fun round => nonempty (fst round) = true) rounds ->
    turnCount (state a) + Z.of_nat (length rounds) <= maxTurns (state a) ->
    let n := turnCount (state a) + Z.of_nat (length rounds) in
    let a' := run JSON_parse (supervisionRounds rounds) a in
    state a' = set_turnCount n (state a)
    /\ pending a' = []
    /\ showHumanPrompt a' = (n <? maxTurns (state a))%Z
    /\ determineNextAgent (state a')
       = (if (n <? maxTurns (state a))%Z then HUMAN_APPROVAL else END).
Proof.
  induction rounds as [ | [text r] rounds IH]; intros a Hsup Htexts Hcap n a'.
  - destruct Hsup as [Hp [Hshown [Hsel Hcond]]].
    destruct (supervisor_asked (state a) Hsel Hcond) as [Hlt _].
    unfold a', n. cbn [supervisionRounds flat_map run fold_left length Z.of_nat].
    rewrite set_turnCount_same, Z.add_0_r.
    destruct (Z.ltb_spec (turnCount (state a)) (maxTurns (state a))) as [_ | Hge];
      [ | lia ].
    repeat apply conj; assumption || reflexivity.
  - assert (Hin : nonempty text = true) by (inversion Htexts; assumption).
    assert (Hrest : Forall (fun round => nonempty (fst round) = true) rounds)
      by (inversion Htexts; assumption).
    destruct (supervision_round a text r Hsup Hin)
      as [Hs1 [Hp1 [_ [Hsh1 [Hsel1 Hcond1]]]]].
    set (a1 := run JSON_parse (supervisionEvents text (Generated r)) a) in *.
    assert (Hrun : a' = run JSON_parse (supervisionRounds rounds) a1).
    { unfold a', a1, run, supervisionRounds. cbn [flat_map fst snd].
      rewrite fold_left_app. reflexivity. }
    assert (Hn : n = turnCount (state a) + 1 + Z.of_nat (length rounds)).
    { unfold n. cbn [length]. lia. }
    assert (Hmax : maxTurns (state a1) = maxTurns (state a)) by (rewrite Hs1; reflexivity).
    assert (Htc : turnCount (state a1) = turnCount (state a) + 1)
      by (rewrite Hs1; reflexivity).
    destruct rounds as [ | round rounds].
    + rewrite Hrun. cbn [supervisionRounds flat_map run fold_left].
      cbn [length Z.of_nat] in Hn. rewrite Z.add_0_r in Hn. rewrite Hn.
      repeat apply conj; assumption.
    + assert (Hlt1 : turnCount (state a) + 1 < maxTurns (state a)).
      { cbn [length] in Hcap. lia. }
      assert (Hsup1 : awaitsSupervisor a1).
      { destruct (Z.ltb_spec (turnCount (state a) + 1) (maxTurns (state a))) as [_ | Hge];
          [ | lia ].
        repeat apply conj; assumption. }
      assert (Hcap1 : turnCount (state a1) + Z.of_nat (length (round :: rounds))
                      <= maxTurns (state a1)).
      { rewrite Hmax, Htc. cbn [length] in Hcap |- *. lia. }
      destruct (IH a1 Hsup1 Hrest Hcap1) as [Hs2 [Hp2 [Hsh2 Hsel2]]].
      rewrite Htc, <- Hn in Hs2. rewrite Hmax, Htc, <- Hn in Hsh2.
      rewrite Hmax, Htc, <- Hn in Hsel2.
      rewrite Hs1, set_turnCount_twice in Hs2.
      rewrite Hrun. repeat apply conj; assumption.
Qed.

(** X11. A rejecting review cannot be repaired.  In a session suspended for
    the supervisor, every round of supervision (a text submitted, the call
    that follows resolved, whatever the texts and the outputs) only counts a
    turn: artifacts and judgment stay as they are and the supervisor is asked
    again, until the rounds have taken [turnCount] to [maxTurns]; then the
    selector says [END] and the prompt is gone. *)
Theorem supervision_only_counts_turns :
  forall (a : App) (rounds : list (string * option string)),
    awaitsSupervisor a ->
    Forall (fun round => nonempty (fst round) = true) rounds ->
    turnCount (state a) + Z.of_nat (length rounds) <= maxTurns (state a) ->
    let n := turnCount (state a) + Z.of_nat (length rounds) in
    let a' := run JSON_parse (supervisionRounds rounds) a in
    state a' = set_turnCount n (state a)
    /\ pending a' = []
    /\ showHumanPrompt a' = (n <? maxTurns (state a))%Z
    /\ determineNextAgent (state a')
       = (if (n <? maxTurns (state a))%Z then HUMAN_APPROVAL else END).
Proof.
  intros a rounds. exact (supervision_rounds rounds a).
Qed.

End Supervision.

Lemma supervision_only_counts_turns_witness :
  let a := run sampleParse toRejection initialApp in
  let rounds := [ ("go on", Some "noted"); ("rework the quiz", None) ] in
  let a' := run sampleParse (supervisionRounds rounds) a in
  awaitsSupervisor a
  /\ state a' = set_turnCount 8 (state a)
  /\ showHumanPrompt a' = true.
Proof.
  intros a rounds a'.
  assert (Hsup : awaitsSupervisor a) by (repeat apply conj; reflexivity).
  assert (Htexts : Forall (fun round => nonempty (fst round) = true) rounds)
    by (repeat constructor).
  assert (Hcap : turnCount (state a) + Z.of_nat (length rounds) <= maxTurns (state a))
    by (vm_compute; intro H; discriminate H).
  destruct (supervision_only_counts_turns sampleParse a rounds Hsup Htexts Hcap)
    as [Hs [_ [Hsh _]]].
  fold a' in Hs, Hsh.
  split; [ exact Hsup | ].
  split; [ rewrite Hs; reflexivity | rewrite Hsh; reflexivity ].
Defined.

(** ** The activity log *)

Section Log.

Variable JSON_parse : string -> option Review.

Lemma logs_runStep (t : Agent) (cur : SharedState) (a : App) :
  logs (runStep t cur a) = logs a ++ [startEntry t].
Proof. reflexivity. Qed.

Lemma logs_settled (t : Agent) (cur : SharedState) (reply : ServiceReply) (a : App) :
  exists more, logs (runStep_settled JSON_parse t cur reply a) = logs a ++ more.
Proof.
  unfold runStep_settled.
  destruct (callAgent t cur reply) as [output | ];
    [ | exists [errorEntry t]; reflexivity ].
  destruct (applyOutput JSON_parse t cur output) as [upd | ];
    [ | exists [errorEntry t]; reflexivity ].
  cbv zeta.
  destruct (determineNextAgent upd);
    unfold runStep_finally, defer, addLog;
    cbn [logs setLogs setState setPending setShowHumanPrompt setIsProcessing setCurrentStep];
    rewrite <- ?app_assoc; eexists; reflexivity.
Qed.

(** What one event does to the log. *)
Lemma logs_dispatch (e : Event) (a : App) :
  (exists more, logs (dispatch JSON_parse e a) = logs a ++ more)
  \/ (e = ClickStart
      /\ logs (dispatch JSON_parse e a) = [initEntry a; startEntry CURRICULUM_PLANNER]).
Proof.
  destruct e as [v | v | v | | | n reply | n]; unfold dispatch.
  - left. exists []. rewrite app_nil_r. destruct (inputsDisabled a); reflexivity.
  - left. exists []. rewrite app_nil_r. destruct (inputsDisabled a); reflexivity.
  - left. exists []. rewrite app_nil_r. destruct (showHumanPrompt a); reflexivity.
  - destruct (startDisabled a) eqn:Hdis.
    + left. exists []. rewrite app_nil_r. reflexivity.
    + right. split; [ reflexivity | ].
      unfold startDisabled in Hdis. apply orb_false_iff in Hdis.
      destruct Hdis as [_ Htopic]. unfold startSession. rewrite Htopic. reflexivity.
  - left. destruct (showHumanPrompt a); [ | exists []; rewrite app_nil_r; reflexivity ].
    unfold handleHumanSubmit.
    destruct (negb (nonempty (humanInput a)));
      [ exists []; rewrite app_nil_r; reflexivity | ].
    cbv zeta. rewrite logs_runStep. unfold humanMerge.
    destruct (studentCondition (state a));
      cbn [logs setLogs setState setHumanInput setShowHumanPrompt addLog];
      rewrite <- app_assoc; eexists; reflexivity.
  - left. destruct (nth_error (pending a) n) as [[t cur | next upd] | ];
      try (exists []; rewrite app_nil_r; reflexivity).
    apply (logs_settled t cur reply (setPending (removeAt n (pending a)) a)).
  - left. destruct (nth_error (pending a) n) as [[t cur | next upd] | ];
      try (exists []; rewrite app_nil_r; reflexivity).
    rewrite logs_runStep. eexists. reflexivity.
Qed.

Lemma logs_run (events : list Event) :
  forall a : App,
    (exists more, logs (run JSON_parse events a) = logs a ++ more)
    \/ (exists (a0 : App) (more : list LogEntry),
          logs (run JSON_parse events a)
          = initEntry a0 :: startEntry CURRICULUM_PLANNER :: more).
Proof.
  induction events as [ | e events IH]; intro a.
  - left. exists []. rewrite app_nil_r. reflexivity.
  - change (run JSON_parse (e :: events) a)
      with (run JSON_parse events (dispatch JSON_parse e a)).
    destruct (IH (dispatch JSON_parse e a)) as [[more Hmore] | Hstarted];
      [ | right; exact Hstarted ].
    destruct (logs_dispatch e a) as [[first Hfirst] | [_ Hstart]].
    + left. exists (first ++ more). rewrite Hmore, Hfirst, app_assoc. reflexivity.
    + right. exists a, more. rewrite Hmore, Hstart. reflexivity.
Qed.

(** X12. The log is only ever extended or started anew.  After any events,
    handled in sequence or not, the log is the log from before with entries
    added at its end, or it begins with the two entries of a START: the
    initialising entry and the start of the planner's turn.  No entry is
    changed or taken out in between. *)
Theorem log_is_extended_or_restarted :
  forall (events : list Event) (a : App),
    (exists more, logs (run JSON_parse events a) = logs a ++ more)
    \/ (exists (a0 : App) (more : list LogEntry),
          logs (run JSON_parse events a)
          = initEntry a0 :: startEntry CURRICULUM_PLANNER :: more).
Proof.
  intros events a. exact (logs_run events a).
Qed.

End Log.

(** ** START while a turn is pending *)

Section Restart.

Variable JSON_parse : string -> option Review.

(** START with a timer pending: the fresh session is stored and its first
    call joins the timer. *)
Lemma start_clicked_over_timer (a : App) (next : Agent) (upd : SharedState) :
  pending a = [Scheduled next upd] ->
  startDisabled a = false ->
  let a' := dispatch JSON_parse ClickStart a in
  state a' = freshState a
  /\ pending a' = [Scheduled next upd; Awaiting CURRICULUM_PLANNER (freshState a)]
  /\ topic (state a') = topicInput a.
Proof.
  intros Hp Hen a'. unfold a', dispatch. rewrite Hen.
  unfold startDisabled in Hen. apply orb_false_elim in Hen. destruct Hen as [_ Htopic].
  unfold startSession. rewrite Htopic. cbv zeta.
  unfold runStep. project_app. rewrite Hp. repeat apply conj; reflexivity.
Qed.

(** X13. START does not cancel what is pending.  When START is clicked
    while the timer of the next turn is pending, the fresh session is stored
    and its planner is called; the timer still fires, and when the call of
    its turn resolves, the state of the session before, one turn on, is
    stored over the fresh one, while the planner's call is still awaited and
    no call is shown as running. *)
Theorem restart_keeps_the_pending_turn :
  forall (a : App) (next : Agent) (cur upd : SharedState) (text : option string),
    pending a = [Scheduled next cur] ->
    startDisabled a = false ->
    applyOutput JSON_parse next cur (js_or text "No response generated.") = Some upd ->
    let a' := run JSON_parse (restartEvents text) a in
    state (dispatch JSON_parse ClickStart a) = freshState a
    /\ state a' = upd
    /\ pending a' = Awaiting CURRICULUM_PLANNER (freshState a) :: scheduledAfter upd
    /\ isProcessing a' = false
    /\ currentStep a' = None.
Proof.
  intros a next cur upd text Hp Hen Happly a'.
  destruct (start_clicked_over_timer a next cur Hp Hen) as [Hs1 [Hp1 _]].
  split; [ exact Hs1 | ].
  unfold a', run, restartEvents. cbn [fold_left].
  set (a1 := dispatch JSON_parse ClickStart a) in *.
  assert (Hp2 : pending (dispatch JSON_parse (TimerFires 0) a1)
                = [Awaiting CURRICULUM_PLANNER (freshState a); Awaiting next cur]).
  { unfold dispatch. rewrite Hp1. cbn [nth_error]. unfold runStep. project_app.
    reflexivity. }
  set (a2 := dispatch JSON_parse (TimerFires 0) a1) in *.
  unfold dispatch. rewrite Hp2. cbn [nth_error].
  unfold runStep_settled, callAgent. rewrite Happly. cbv zeta.
  unfold scheduledAfter.
  destruct (determineNextAgent upd); unfold runStep_finally; project_app;
    repeat apply conj; reflexivity.
Qed.

End Restart.

Lemma restart_keeps_the_pending_turn_witness :
  let a := run sampleParse
             [ InputTopic "Photosynthesis"; ClickStart; InputTopic "Volcanoes";
               say 0 "plan" ] initialApp in
  let a' := run sampleParse (restartEvents (Some "explanation")) a in
  topicInput a = "Volcanoes"
  /\ topic (state (dispatch sampleParse ClickStart a)) = "Volcanoes"
  /\ topic (state a') = "Photosynthesis"
  /\ turnCount (state a') = 2.
Proof.
  intros a a'.
  destruct (restart_keeps_the_pending_turn sampleParse a CONCEPT_EXPLAINER
              (set_lessonPlan (Some "plan")
                 (set_turnCount 1
                    (set_difficulty "Beginner" (set_topic "Photosynthesis" INITIAL_STATE))))
              (set_explanation (Some "explanation")
                 (set_turnCount 2
                    (set_lessonPlan (Some "plan")
                       (set_turnCount 1
                          (set_difficulty "Beginner"
                             (set_topic "Photosynthesis" INITIAL_STATE))))))
              (Some "explanation") eq_refl eq_refl eq_refl)
    as [Hfresh [Hs _]].
  fold a' in Hs.
  repeat apply conj;
    [ reflexivity | rewrite Hfresh; reflexivity | rewrite Hs; reflexivity
    | rewrite Hs; reflexivity ].
Defined.

(** ** The request and the output *)

(** X14. JSON is asked of the agent whose output is parsed, and of no
    other.  The request of [callAgent] carries the JSON response type and the
    schema of the judgment exactly for the Quality-Reviewer, and the
    Quality-Reviewer's is the only turn that can fail on an output once the
    call has resolved: for every other agent the output is stored or counted
    as it comes. *)
Theorem json_is_asked_of_the_parsed_agent :
  forall (JSON_stringify : SharedState -> string) (t : Agent) (s : SharedState),
    (responseMimeType (request JSON_stringify t s) = Some "application/json"
     <-> t = QUALITY_REVIEWER)
    /\ (responseSchema (request JSON_stringify t s) = Some REVIEW_SCHEMA
        <-> t = QUALITY_REVIEWER)
    /\ ((exists (JSON_parse : string -> option Review) (output : string),
           applyOutput JSON_parse t s output = None)
        <-> t = QUALITY_REVIEWER)
    /\ systemInstruction (request JSON_stringify t s) = SYSTEM_INSTRUCTIONS t.
Proof.
  intros JSON_stringify t s.
  repeat apply conj; try reflexivity; try split;
    try (intro H; destruct t; first [ reflexivity | discriminate H ]);
    try (intro H; rewrite H; reflexivity).
  - intros [JSON_parse [output H]]. destruct t; first [ reflexivity | discriminate H ].
  - intro H. rewrite H. exists (fun _ => None), EmptyString. reflexivity.
Qed.

(** ** Labels *)

Lemma replaceFirst_occurrences (c d : ascii) (s : string) :
  Ascii.eqb d c = false ->
  occurrences c (replaceFirst c d s) = Nat.pred (occurrences c s).
Proof.
  intro Hcd. induction s as [ | x rest IH]; [ reflexivity | ].
  cbn [replaceFirst occurrences].
  destruct (Ascii.eqb x c) eqn:Hx.
  - cbn [occurrences]. rewrite Hcd. reflexivity.
  - cbn [occurrences]. rewrite Hx. exact IH.
Qed.

Lemma Agent_name_underscores (t : Agent) :
  (occurrences "_" (Agent_name t) <= 1)%nat.
Proof. destruct t; vm_compute; repeat constructor. Qed.

(** X15. One replacement cleans every label.  [replace('_', ' ')] replaces
    the first underscore only; no agent's name has more than one, so the name
    shown beside a log entry and the value of the Current Agent row, [IDLE]
    included, are free of underscores. *)
Theorem labels_have_no_underscore :
  forall (entry : LogEntry) (a : App),
    occurrences "_" (entryLabel entry) = 0%nat
    /\ occurrences "_" (currentAgentLabel a) = 0%nat.
Proof.
  intros entry a. unfold entryLabel, currentAgentLabel.
  rewrite !replaceFirst_occurrences by reflexivity.
  split.
  - pose proof (Agent_name_underscores (agent entry)) as H.
    destruct (occurrences "_" (Agent_name (agent entry))) as [ | [ | n]];
      [ reflexivity | reflexivity | lia ].
  - destruct (currentStep a) as [t | ]; [ | reflexivity ].
    pose proof (Agent_name_underscores t) as H.
    destruct (occurrences "_" (Agent_name t)) as [ | [ | n]];
      [ reflexivity | reflexivity | lia ].
Qed.
